(** * web_agent_voice: a shallow embedding of the retrieval tools, the two
    supervisor entry points and the /transcribe/ pipeline.

    Layout:
    - [Py]    the fragment of Python values, exceptions and [str] methods the
              sources use;
    - [Data]  src/data.py  (get_news_summary, get_news_urls,
              search_duckduckgo, fetch_stock_history);
    - [Ma]    src/ma.py    (process_user_query);
    - [Main]  src/main.py  (process_user_query, transcribe_audio).

    Calls into third-party libraries (duckduckgo_search, requests, bs4,
    newspaper, yfinance, pydub, speech_recognition, gTTS, the compiled
    langgraph supervisor) are fields of a record of oracles; each oracle
    either raises (left) or returns (right). *)

From Stdlib Require Import ZArith Lia Bool.
From Stdlib Require Import Ascii String.
From stdpp Require Import base option list gmap strings.

Set Warnings "-register-all".
Local Open Scope stdpp_scope.

(* ================================================================== *)
(** * Python values, exceptions, string methods *)
(* ================================================================== *)
Module Py.

(** Exceptions that are subclasses of [Exception]; the two speech
    recognition classes are kept apart because main.py has handlers for
    them. *)
Inductive exn : Type :=
| UnknownValueError
| RequestError (msg : string)
| KeyError (key : string)
| IndexError
| TypeError (msg : string)
| OtherError (msg : string).

(** [str(e)] *)
Definition str_of_exn (e : exn) : string :=
  match e with
  | UnknownValueError => EmptyString
  | RequestError msg => msg
  | KeyError key => "'" +:+ key +:+ "'"
  | IndexError => "list index out of range"
  | TypeError msg => msg
  | OtherError msg => msg
  end.

(** A call either raises or returns. *)
Definition res (A : Type) : Type := exn + A.

Definition raise {A} (e : exn) : res A := inl e.
Definition ret {A} (a : A) : res A := inr a.
Definition bind {A B} (m : res A) (k : A -> res B) : res B :=
  match m with
  | inl e => inl e
  | inr a => k a
  end.

(** Message classes of langchain.schema that can occur in a trace. *)
Inductive msg_class : Type := HumanMessage | AIMessage | SystemMessage | ToolMessage.

(** Python values.  A float is kept as its 64 bit pattern, it is never
    inspected.  A dict is the list of its items in insertion order. *)
Inductive pyval : Type :=
| PyNone
| PyStr (s : string)
| PyFloat (bits : Z)
| PyList (items : list pyval)
| PySet (elems : list pyval)
| PyDict (items : list (string * pyval))
| PyMsg (cls : msg_class) (content : pyval).

Definition dict : Type := list (string * pyval).

(** [d.get(k)] as an option *)
Fixpoint dict_get (k : string) (d : dict) : option pyval :=
  match d with
  | [] => None
  | (k', v) :: d' => if String.eqb k k' then Some v else dict_get k d'
  end.

(** [d[k]] *)
Definition dict_item (d : dict) (k : string) : res pyval :=
  match dict_get k d with
  | Some v => ret v
  | None => raise (KeyError k)
  end.

(** [d.get(k, default)] *)
Definition dict_get_default (d : dict) (k : string) (default : pyval) : pyval :=
  match dict_get k d with
  | Some v => v
  | None => default
  end.

Definition keys (d : dict) : list string := map fst d.

(** [x[k]] for a string key on an arbitrary value *)
Definition getitem (x : pyval) (k : string) : res pyval :=
  match x with
  | PyDict d => dict_item d k
  | _ => raise (TypeError "object is not subscriptable")
  end.

(** [reversed(x)], consumed at once by a for loop *)
Definition reversed (x : pyval) : res (list pyval) :=
  match x with
  | PyList l => ret (rev l)
  | _ => raise (TypeError "object is not reversible")
  end.

(** Truth value of a string: [if s] *)
Definition str_truthy (s : string) : bool :=
  match s with
  | EmptyString => false
  | String _ _ => true
  end.

(** [sub in s] *)
Fixpoint str_in (sub s : string) : bool :=
  String.prefix sub s ||
  match s with
  | EmptyString => false
  | String _ s' => str_in sub s'
  end.

(** [s.replace(a, b)] for one-character [a] and [b] *)
Fixpoint replace_char (a b : ascii) (s : string) : string :=
  match s with
  | EmptyString => EmptyString
  | String c s' => String (if Ascii.eqb c a then b else c) (replace_char a b s')
  end.

(** [s.split(sep)] for a non-empty [sep]: a left to right scan for
    non-overlapping occurrences.  [skip] counts the characters of an
    occurrence that are still to be dropped, [cur] is the piece read so
    far. *)
Fixpoint split_go (sep : string) (skip : nat) (cur : string) (s : string) : list string :=
  match s with
  | EmptyString => [cur]
  | String c s' =>
      match skip with
      | S k => split_go sep k cur s'
      | O =>
          if String.prefix sep s
          then cur :: split_go sep (String.length sep - 1) EmptyString s'
          else split_go sep 0 (cur +:+ String c EmptyString) s'
      end
  end.

Definition split (sep s : string) : list string := split_go sep 0 EmptyString s.

(** A [str] is kept as its UTF-8 encoding.  Comparison, [in], [split] and
    [startswith] agree with Python on the encoding, since an encoded
    needle matches only at character boundaries; [len] and slices count
    characters, that is the bytes that do not continue a character. *)

(** The byte continues a character: its two top bits are 1 0. *)
Definition is_continuation (c : ascii) : bool :=
  match c with
  | Ascii _ _ _ _ _ _ b6 b7 => b7 && negb b6
  end.

(** [len(s)] *)
Fixpoint len (s : string) : nat :=
  match s with
  | EmptyString => 0
  | String c s' => if is_continuation c then len s' else S (len s')
  end.

(** [s[:n]]: the first [n] characters, each with all its bytes *)
Fixpoint slice_to (n : nat) (s : string) : string :=
  match s with
  | EmptyString => EmptyString
  | String c s' =>
      if is_continuation c then String c (slice_to n s')
      else match n with
           | O => EmptyString
           | S k => String c (slice_to k s')
           end
  end.

(** [l[i]] for [i >= 0] *)
Definition list_item {A} (l : list A) (i : nat) : res A :=
  match l !! i with
  | Some a => ret a
  | None => raise IndexError
  end.

(** Values [json.dumps] accepts: sets and message objects are refused. *)
Fixpoint jsonable (v : pyval) : bool :=
  match v with
  | PyNone | PyStr _ | PyFloat _ => true
  | PyList l => forallb jsonable l
  | PySet _ => false
  | PyDict d => forallb (fun kv => jsonable (snd kv)) d
  | PyMsg _ _ => false
  end.

End Py.

Export Py.

Notation "x <- m ;; k" := (Py.bind m (fun x => k))
  (at level 100, m at next level, right associativity, only parsing).

(* ================================================================== *)
(** * src/ma.py *)
(* ================================================================== *)
Module Ma.

(** The payload [process_user_query] hands to [app.invoke]. *)
Definition invoke_payload (query : string) : pyval :=
  let message := PyMsg HumanMessage (PyStr query) in
  PyDict [("messages", PyList [message])].

Definition process_user_query (app_invoke : pyval -> res pyval) (query : string) : res pyval :=
  app_invoke (invoke_payload query).

End Ma.

(* ================================================================== *)
(** * src/data.py *)
(* ================================================================== *)
Module Data.

(** What [article.parse()] leaves in a newspaper [Article]. *)
Record Article : Type := {
  title : string;
  meta_description : string;
  text : string
}.

(** A pandas DataFrame: the name of the row index, the column labels, and
    the rows, each with its index label and one cell per column.  yfinance
    returns the trading day as the index label. *)
Record DataFrame : Type := {
  index_name : string;
  columns : list string;
  rows : list (pyval * list pyval)
}.

(** The third-party calls of data.py. *)
Record World : Type := {
  (** [DDGS()] and [__enter__] *)
  ddgs_enter : option exn;
  (** [list(ddgs.text(query, max_results=n))] *)
  ddgs_text : string -> nat -> res (list dict);
  (** [list(ddgs.news(query, max_results=n))] *)
  ddgs_news : string -> nat -> res (list dict);
  (** [requests.get(url, headers=headers).text] *)
  requests_get : string -> list (string * string) -> res string;
  (** [[link['href'] for link in BeautifulSoup(html, 'html.parser').find_all('a', href=True)]] *)
  soup_hrefs : string -> res (list string);
  (** [Article(url)], [download()], [parse()] *)
  article_fetch : string -> res Article;
  (** [yf.Ticker(ticker).history(start=start_date, end=end_date)] *)
  yf_history : string -> string -> string -> res DataFrame
}.

(** ** get_news_summary *)

Definition get_news_summary (w : World) (url : string) : pyval :=
  let body : res pyval :=
    article <- article_fetch w url ;;
    let summary :=
      if str_truthy (meta_description article)
      then meta_description article
      else slice_to 250 (text article) in
    source <- list_item (split "/" url) 2 ;;
    ret (PyDict [("title", PyStr (title article));
                 ("summary", PyStr summary);
                 ("source", PyStr source);
                 ("url", PyStr url)]) in
  match body with
  | inr v => v
  | inl _ => PyNone
  end.

(** ** get_news_urls *)

Definition search_url (query : string) : string :=
  "https://www.google.com/search?q=" +:+ replace_char " " "+" query +:+ "+news&tbm=nws".

Definition headers : list (string * string) :=
  [("User-Agent",
    "Mozilla/5.0 (Windows NT 10.0; Win64; x64) AppleWebKit/537.36 (KHTML, like Gecko) Chrome/91.0.4472.124 Safari/537.36")].

Definition remove_url : list string :=
  ["https://www.google.com";
   "https://maps.google.com";
   "https://play.google.com";
   "https://policies.google.com";
   "https://support.google.com";
   "https://accounts.google"].

(** [url.split("/url?q=")[-1].split("&")[0]]; [split] never returns an
    empty list ([split_not_nil] below), so neither index can raise. *)
Definition filter_url_of (url : string) : string :=
  let tail := default EmptyString (last (split "/url?q=" url)) in
  default EmptyString (head (split "&" tail)).

(** The condition guarding [news_links.add(filter_url)]. *)
Definition keep_url (filter_url : string) : bool :=
  str_in "http" filter_url
  && negb (str_in "msn" filter_url)
  && negb (existsb (fun remove => str_in remove filter_url) remove_url).

(** The [for link in soup.find_all('a', href=True)] loop, with its
    [break]. *)
Fixpoint collect_links (max_results : nat) (hrefs : list string)
    (news_links : gset string) : gset string :=
  match hrefs with
  | [] => news_links
  | url :: rest =>
      if str_in "/url?q=" url then
        let filter_url := filter_url_of url in
        if keep_url filter_url then
          let news_links' := {[ filter_url ]} ∪ news_links in
          if max_results <=? size news_links'
          then news_links'
          else collect_links max_results rest news_links'
        else collect_links max_results rest news_links
      else collect_links max_results rest news_links
  end.

(** [list(news_links)] is [elements]: the order is the set's own. *)
Definition get_news_urls (w : World) (query : string) (max_results : nat) : list string :=
  let body : res (list string) :=
    response_text <- requests_get w (search_url query) headers ;;
    hrefs <- soup_hrefs w response_text ;;
    ret (elements (collect_links max_results hrefs ∅)) in
  match body with
  | inr l => l
  | inl _ => []
  end.

(** ** search_duckduckgo *)

(** [if summary:] on what [get_news_summary] returns *)
Definition truthy (v : pyval) : bool :=
  match v with
  | PyNone => false
  | PyStr s => str_truthy s
  | PyFloat bits => negb (Z.eqb (Z.land bits (Z.ones 63)) 0)
  | PyList l | PySet l => negb (Nat.eqb (length l) 0)
  | PyDict d => negb (Nat.eqb (length d) 0)
  | PyMsg _ _ => true
  end.

(** The loop appending the truthy summaries. *)
Fixpoint collect_summaries (w : World) (news_urls : list string) : list pyval :=
  match news_urls with
  | [] => []
  | url :: rest =>
      let summary := get_news_summary w url in
      if truthy summary
      then summary :: collect_summaries w rest
      else collect_summaries w rest
  end.

(** A list comprehension whose element expression may raise. *)
Fixpoint map_res {A B} (f : A -> res B) (l : list A) : res (list B) :=
  match l with
  | [] => ret []
  | a :: l' =>
      b <- f a ;;
      bs <- map_res f l' ;;
      ret (b :: bs)
  end.

Definition format_text_result (result : dict) : res pyval :=
  t <- dict_item result "title" ;;
  b <- dict_item result "body" ;;
  l <- dict_item result "link" ;;
  ret (PyDict [("title", t); ("snippet", b); ("link", l)]).

Definition format_news_result (result : dict) : res pyval :=
  t <- dict_item result "title" ;;
  b <- dict_item result "body" ;;
  l <- dict_item result "link" ;;
  ret (PyDict [("title", t); ("snippet", b); ("link", l);
               ("date", dict_get_default result "date" (PyStr EmptyString))]).

Definition search_duckduckgo (w : World) (query : string) : pyval :=
  let body : res pyval :=
    _ <- match ddgs_enter w with Some e => raise e | None => ret tt end ;;
    text_results <- ddgs_text w query 5 ;;
    news_results <- ddgs_news w query 3 ;;
    let news_urls := get_news_urls w query 5 in
    let news_summaries := collect_summaries w news_urls in
    text_out <- map_res format_text_result text_results ;;
    news_out <- map_res format_news_result news_results ;;
    let results := PyDict [("text_results", PyList text_out);
                           ("news_results", PyList news_out);
                           ("news_summaries", PyList news_summaries)] in
    ret (PyDict [("status", PyStr "success"); ("results", results)]) in
  match body with
  | inr v => v
  | inl e => PyDict [("status", PyStr "error");
                     ("message", PyStr (str_of_exn e));
                     ("results", PyNone)]
  end.

(** ** fetch_stock_history *)

(** [df.empty]: some axis has length 0 *)
Definition df_empty (df : DataFrame) : bool :=
  Nat.eqb (length (rows df)) 0 || Nat.eqb (length (columns df)) 0.

(** [d[k] = v] *)
Fixpoint dict_set (k : string) (v : pyval) (d : dict) : dict :=
  match d with
  | [] => [(k, v)]
  | (k', v') :: d' =>
      if String.eqb k k' then (k, v) :: d' else (k', v') :: dict_set k v d'
  end.

(** [dict(zip(ks, vs))] *)
Definition dict_of_zip (ks : list string) (vs : list pyval) : dict :=
  fold_left (fun d kv => dict_set (fst kv) (snd kv) d) (zip ks vs) [].

(** [df.to_dict('records')]: one dict per row, keyed by the column labels;
    the index label of the row is not part of it. *)
Definition to_dict_records (df : DataFrame) : list pyval :=
  map (fun row => PyDict (dict_of_zip (columns df) (snd row))) (rows df).

Definition fetch_stock_history (w : World) (ticker start_date end_date : string) : pyval :=
  let body : res pyval :=
    history <- yf_history w ticker start_date end_date ;;
    if df_empty history then
      ret (PyDict [("status", PyStr "error");
                   ("message", PyStr "No data found for the given period.");
                   ("data", PyNone)])
    else
      let data := to_dict_records history in
      ret (PyDict [("status", PyStr "success"); ("data", PyList data)]) in
  match body with
  | inr v => v
  | inl e => PyDict [("status", PyStr "error");
                     ("message", PyStr (str_of_exn e));
                     ("data", PyNone)]
  end.

(** ** extract_keywords *)

(** The TextBlob calls of extract_keywords: [TextBlob(text).noun_phrases]
    and [TextBlob(text).tags], the (word, tag) pairs. *)
Record TextBlob : Type := {
  noun_phrases : string -> res (list string);
  tags : string -> res (list (string * string))
}.

(** [tag.startswith(('NN', 'VB', 'JJ'))] *)
Definition keyword_tag (tag : string) : bool :=
  String.prefix "NN" tag || String.prefix "VB" tag || String.prefix "JJ" tag.

(** The [for word, tag in blob.tags] loop appending to [keywords]. *)
Fixpoint append_tagged (tagged : list (string * string)) (keywords : list string)
    : list string :=
  match tagged with
  | [] => keywords
  | (word, tag) :: rest =>
      if keyword_tag tag && (3 <? len word)
      then append_tagged rest (keywords ++ [word])
      else append_tagged rest keywords
  end.

(** No handler: an exception of TextBlob leaves the function. *)
Definition extract_keywords (tb : TextBlob) (text : string) : res (list string) :=
  if negb (str_truthy text) then ret []
  else
    phrases <- noun_phrases tb text ;;
    tagged <- tags tb text ;;
    let keywords := append_tagged tagged ([] ++ phrases) in
    ret (elements (list_to_set keywords : gset string)).

End Data.

(* ================================================================== *)
(** * src/main.py *)
(* ================================================================== *)
Module Main.

Definition bytes : Type := list Byte.byte.

(** The files on disk and the paths opened for writing so far, latest
    first. *)
Record FS : Type := {
  files : gmap string bytes;
  written : list string
}.

Definition fs_init : FS := {| files := ∅; written := [] |}.

(** Code that raises or returns and updates the files; what was written
    before an exception stays written. *)
Definition M (A : Type) : Type := FS -> res A * FS.

Definition mret {A} (a : A) : M A := fun fs => (inr a, fs).
Definition mraise {A} (e : exn) : M A := fun fs => (inl e, fs).
Definition mbind {A B} (m : M A) (k : A -> M B) : M B :=
  fun fs =>
    match m fs with
    | (inl e, fs') => (inl e, fs')
    | (inr a, fs') => k a fs'
    end.
Definition lift {A} (r : res A) : M A := fun fs => (r, fs).
Definition lift_opt (r : option exn) : M unit :=
  fun fs => match r with Some e => (inl e, fs) | None => (inr tt, fs) end.
(** [try: m except Exception as e: h e] *)
Definition try_except {A} (m : M A) (h : exn -> A) : M A :=
  fun fs =>
    match m fs with
    | (inl e, fs') => (inr (h e), fs')
    | (inr a, fs') => (inr a, fs')
    end.

Notation "x <~ m ; k" := (mbind m (fun x => k))
  (at level 100, m at next level, right associativity, only parsing).

(** One POST to /transcribe/: what [await file.read()] does, and the value
    [uuid.uuid4().hex] takes while the request is handled. *)
Record Request : Type := {
  file_read : res bytes;
  uuid4_hex : string
}.

(** The third-party calls of main.py. *)
Record World : Type := {
  (** [os.makedirs(path, exist_ok=True)] *)
  os_makedirs : string -> option exn;
  (** whether opening [path] for writing raises *)
  open_wb : string -> option exn;
  (** [AudioSegment.from_file] on the content of the file *)
  audio_from_file : bytes -> res bytes;
  (** the encoding [sound.export(_, format=fmt)] writes *)
  audio_export : bytes -> string -> res bytes;
  (** [sr.AudioFile] and [recognizer.record(source)] on the content *)
  sr_record : bytes -> res bytes;
  (** [recognizer.recognize_google(audio_data)] *)
  recognize_google : bytes -> res string;
  (** [app_agent.invoke(payload)] *)
  app_agent_invoke : pyval -> res pyval;
  (** [gTTS(text=text, lang=lang)] *)
  gtts_new : pyval -> string -> option exn;
  (** the audio [tts.save] streams into the opened file *)
  gtts_stream : pyval -> string -> res bytes
}.

(** [open(path, "wb")]: the file exists and is empty afterwards. *)
Definition fs_open_wb (w : World) (path : string) : M unit :=
  fun fs =>
    match open_wb w path with
    | Some e => (inl e, fs)
    | None => (inr tt, {| files := <[path := []]> (files fs);
                          written := path :: written fs |})
    end.

(** [f.write(data)] on a file opened by [fs_open_wb] *)
Definition fs_write (path : string) (data : bytes) : M unit :=
  fun fs => (inr tt, {| files := <[path := data]> (files fs);
                        written := written fs |}).

Definition fs_read (path : string) : M bytes :=
  fun fs =>
    match files fs !! path with
    | Some data => (inr data, fs)
    | None => (inl (OtherError ("[Errno 2] No such file or directory: '" +:+ path +:+ "'")), fs)
    end.

(** ** process_user_query *)

Definition invoke_payload (query : string) : pyval :=
  PyDict [("Message",
           PyList [PyDict [("role", PyStr "user");
                           ("content", PySet [PyStr query])]])].

Definition process_user_query (w : World) (query : string) : res pyval :=
  app_agent_invoke w (invoke_payload query).

(** ** transcribe_audio *)

(** The [for message in reversed(...)] loop with its [break], on the
    already reversed list; [final_response] starts as the empty string. *)
Fixpoint scan_final_response (msgs : list pyval) : pyval :=
  match msgs with
  | [] => PyStr EmptyString
  | PyMsg AIMessage content :: _ => content
  | _ :: rest => scan_final_response rest
  end.

(** [JSONResponse(content)]: the body is rendered on construction. *)
Definition JSONResponse (content : dict) : res pyval :=
  if jsonable (PyDict content)
  then ret (PyDict content)
  else raise (TypeError "Object is not JSON serializable").

Definition audio_filename (req : Request) : string :=
  "response_" +:+ uuid4_hex req +:+ ".mp3".

Definition transcribe_body (w : World) (req : Request) : M pyval :=
  _ <~ lift_opt (os_makedirs w "static") ;
  _ <~ fs_open_wb w "temp.wav" ;
  upload <~ lift (file_read req) ;
  _ <~ fs_write "temp.wav" upload ;
  raw <~ fs_read "temp.wav" ;
  sound <~ lift (audio_from_file w raw) ;
  _ <~ fs_open_wb w "converted.wav" ;
  wav <~ lift (audio_export w sound "wav") ;
  _ <~ fs_write "converted.wav" wav ;
  source <~ fs_read "converted.wav" ;
  audio_data <~ lift (sr_record w source) ;
  text <~ lift (recognize_google w audio_data) ;
  response <~ lift (process_user_query w text) ;
  messages <~ lift (getitem response "messages") ;
  rev_messages <~ lift (reversed messages) ;
  let final_response := scan_final_response rev_messages in
  let audio_path := "static/" +:+ audio_filename req in
  _ <~ lift_opt (gtts_new w final_response "en") ;
  _ <~ fs_open_wb w audio_path ;
  mp3 <~ lift (gtts_stream w final_response "en") ;
  _ <~ fs_write audio_path mp3 ;
  lift (JSONResponse [("transcription", PyStr text);
                      ("response", final_response);
                      ("audio_url", PyStr ("/static/" +:+ audio_filename req))]).

(** The three [except] clauses, tried in order. *)
Definition transcribe_handler (e : exn) : pyval :=
  match e with
  | UnknownValueError =>
      PyDict [("error", PyStr "Google Speech Recognition could not understand audio")]
  | RequestError _ =>
      PyDict [("error", PyStr ("Could not request results from Google; " +:+ str_of_exn e))]
  | _ => PyDict [("error", PyStr (str_of_exn e))]
  end.

Definition transcribe_audio (w : World) (req : Request) : M pyval :=
  try_except (transcribe_body w req) transcribe_handler.

(** What the handler returns, and the paths it opened for writing, when
    it starts from the files [fs]. *)
Definition response_of (w : World) (req : Request) (fs : FS) : pyval :=
  match fst (transcribe_audio w req fs) with
  | inr v => v
  | inl _ => PyNone
  end.

Definition paths_written (w : World) (req : Request) : list string :=
  written (snd (transcribe_audio w req fs_init)).

End Main.

(* ================================================================== *)
(** * src/app.py *)
(* ================================================================== *)
Module App.

(** [key in data] for a string [key]: a key of a dict, an element of a
    list or set, a substring of a string; other values are not
    iterable. *)
Definition contains (key : string) (data : pyval) : res bool :=
  let is_key (v : pyval) : bool :=
    match v with
    | PyStr s => String.eqb s key
    | _ => false
    end in
  match data with
  | PyDict d => ret (existsb (fun k => String.eqb k key) (keys d))
  | PyList l | PySet l => ret (existsb is_key l)
  | PyStr s => ret (str_in key s)
  | _ => raise (TypeError "argument is not iterable")
  end.

(** What the page does with the body of a 200 answer of /transcribe/:
    [Some msg] when it takes the branch [st.error(data["error"])],
    [None] when it goes on to show the answer. *)
Definition error_branch (data : pyval) : res (option pyval) :=
  is_error <- contains "error" data ;;
  if is_error : bool then
    msg <- getitem data "error" ;;
    ret (Some msg)
  else ret None.

End App.

(* ================================================================== *)
(** * The vocabulary of the specification *)
(* ================================================================== *)
Module Spec.

(** The text of a turn tagged User whose content is a string: either a
    [HumanMessage] or a role/content mapping with role "user". *)
Definition user_turn_text (turn : pyval) : option string :=
  match turn with
  | PyMsg HumanMessage (PyStr s) => Some s
  | PyDict d =>
      match dict_get "role" d, dict_get "content" d with
      | Some (PyStr role), Some (PyStr s) =>
          if String.eqb role "user" then Some s else None
      | _, _ => None
      end
  | _ => None
  end.

(** The supervisor boundary: a conversation keyed "messages", a list of
    turns, one of which is the User turn carrying [query]. *)
Definition conversation_payload (query : string) (payload : pyval) : bool :=
  match payload with
  | PyDict d =>
      match dict_get "messages" d with
      | Some (PyList turns) =>
          existsb (fun turn =>
                     match user_turn_text turn with
                     | Some s => String.eqb s query
                     | None => false
                     end) turns
      | _ => false
      end
  | _ => false
  end.

(** The content of the last Assistant-tagged turn of a trace, if any. *)
Definition assistant_content (turn : pyval) : option pyval :=
  match turn with
  | PyMsg AIMessage content => Some content
  | _ => None
  end.

Definition last_assistant_content (trace : list pyval) : option pyval :=
  last (omap assistant_content trace).

(** Field [f] of a tool result. *)
Definition field (f : string) (r : pyval) : option pyval :=
  match r with
  | PyDict d => dict_get f d
  | _ => None
  end.

(** Field [f] of the payload under "results". *)
Definition results_field (f : string) (r : pyval) : option pyval :=
  match field "results" r with
  | Some payload => field f payload
  | None => None
  end.

Definition has_key (names : list string) (rec : pyval) : bool :=
  match rec with
  | PyDict d => existsb (fun k => existsb (String.eqb k) names) (keys d)
  | _ => false
  end.

(** Labels under which a daily record could carry its date, and its
    closing price. *)
Definition date_labels : list string := ["Date"; "date"; "Datetime"; "datetime"].
Definition close_labels : list string := ["Close"; "close"].

(** The reading of the history success payload under examination: a
    non-empty list whose records all have a date and a closing price. *)
Definition daily_records_with_date : Prop :=
  forall (w : Data.World) (ticker start_date end_date : string) (data : list pyval),
    Data.fetch_stock_history w ticker start_date end_date
      = PyDict [("status", PyStr "success"); ("data", PyList data)] ->
    data <> [] /\
    forall rec, In rec data ->
      has_key date_labels rec = true /\ has_key close_labels rec = true.


(** The two shapes of a search result. *)
Definition error_result (e : exn) : pyval :=
  PyDict [("status", PyStr "error");
          ("message", PyStr (str_of_exn e));
          ("results", PyNone)].

Definition success_result (text_out news_out news_summaries : list pyval) : pyval :=
  PyDict [("status", PyStr "success");
          ("results", PyDict [("text_results", PyList text_out);
                              ("news_results", PyList news_out);
                              ("news_summaries", PyList news_summaries)])].

Definition is_none (v : pyval) : bool :=
  match v with
  | PyNone => true
  | _ => false
  end.

(** A complete summary record. *)
Definition summary_record (v : pyval) : Prop :=
  exists t s src u,
    v = PyDict [("title", PyStr t); ("summary", PyStr s);
                ("source", PyStr src); ("url", PyStr u)].

(** No "/" occurs in [s]. *)
Fixpoint no_slash (s : string) : bool :=
  match s with
  | EmptyString => true
  | String c s' => negb (Ascii.eqb c "/") && no_slash s'
  end.

(** A path component of a URL: empty, or starting with "/". *)
Definition path_like (s : string) : bool :=
  match s with
  | EmptyString => true
  | String c _ => Ascii.eqb c "/"
  end.



End Spec.

(* ================================================================== *)
(** * Concrete worlds and requests *)
(* ================================================================== *)
Module Examples.

Import Data.

(** The columns of a yfinance history frame; the trading day is the
    index. *)
Definition yf_columns : list string :=
  ["Open"; "High"; "Low"; "Close"; "Volume"; "Dividends"; "Stock Splits"].

Definition aapl_frame : DataFrame :=
  {| index_name := "Date";
     columns := yf_columns;
     rows := [(PyStr "2024-01-02 00:00:00-05:00",
               [PyFloat 4640537203540230144; PyFloat 4640537203540230145;
                PyFloat 4640537203540230140; PyFloat 4640537203540230143;
                PyFloat 4725570615333879808; PyFloat 0; PyFloat 0])] |}.

Definition empty_frame : DataFrame :=
  {| index_name := "Date"; columns := yf_columns; rows := [] |}.

Definition aapl_article : Article :=
  {| title := "Apple shares rise";
     meta_description := EmptyString;
     text := "Apple shares rose on Tuesday." |}.

Definition aapl_url : string := "https://news.example.com/markets/aapl".

Definition ddg_hit : dict :=
  [("title", PyStr "AAPL"); ("body", PyStr "Apple Inc."); ("link", PyStr "https://example.com/aapl")].

(** Everything answers; DuckDuckGo returns one hit, capped by
    [max_results]. *)
Definition world_up : World :=
  {| ddgs_enter := None;
     ddgs_text := fun _ n => inr (take n [ddg_hit]);
     ddgs_news := fun _ n => inr (take n [ddg_hit]);
     requests_get := fun _ _ => inr "<html>";
     soup_hrefs := fun _ => inr ["/search?q=x"; "/url?q=" +:+ aapl_url +:+ "&sa=U"];
     article_fetch := fun url =>
       if String.eqb url aapl_url then inr aapl_article
       else inl (OtherError "Article `download()` failed");
     yf_history := fun ticker _ _ =>
       if String.eqb ticker "AAPL" then inr aapl_frame else inr empty_frame |}.


(** As [world_up], but the news page cannot be fetched. *)
Definition world_news_down : World :=
  {| ddgs_enter := None;
     ddgs_text := ddgs_text world_up;
     ddgs_news := ddgs_news world_up;
     requests_get := fun _ _ => inl (OtherError "ConnectionError");
     soup_hrefs := soup_hrefs world_up;
     article_fetch := article_fetch world_up;
     yf_history := yf_history world_up |}.





(** An article served from a host with an explicit port. *)
Definition port_url : string := "https://example.com:8080/markets/aapl".

Definition world_port : World :=
  {| ddgs_enter := None;
     ddgs_text := fun _ _ => inr [];
     ddgs_news := fun _ _ => inr [];
     requests_get := fun _ _ => inl (OtherError "ConnectionError");
     soup_hrefs := fun _ => inr [];
     article_fetch := fun url =>
       if String.eqb url port_url then inr aapl_article
       else inl (OtherError "Article `download()` failed");
     yf_history := yf_history world_up |}.

Definition silence : Main.bytes := [Byte.x00; Byte.x00].
Definition speech : Main.bytes := [Byte.x52; Byte.x49; Byte.x46; Byte.x46].

Definition answer_trace : pyval :=
  PyDict [("messages",
           PyList [PyMsg HumanMessage (PyStr "price of AAPL");
                   PyMsg AIMessage (PyStr "transferring to the history agent");
                   PyMsg ToolMessage (PyStr "{}");
                   PyMsg AIMessage (PyStr "AAPL closed at 185.");
                   PyMsg HumanMessage (PyStr EmptyString)])].

(** The services of main.py all answer; empty audio is unintelligible. *)
Definition studio : Main.World :=
  {| Main.os_makedirs := fun _ => None;
     Main.open_wb := fun _ => None;
     Main.audio_from_file := fun raw => inr raw;
     Main.audio_export := fun sound _ => inr sound;
     Main.sr_record := fun source => inr source;
     Main.recognize_google := fun audio =>
       match audio with
       | Byte.x00 :: _ => inl UnknownValueError
       | _ => inr "price of AAPL"
       end;
     Main.app_agent_invoke := fun _ => inr answer_trace;
     Main.gtts_new := fun _ _ => None;
     Main.gtts_stream := fun _ _ => inr [Byte.xff; Byte.xfb] |}.

Definition request_a : Main.Request :=
  {| Main.file_read := inr speech;
     Main.uuid4_hex := "0f8fad5bd9cb469fa16570867728950e" |}.

Definition request_b : Main.Request :=
  {| Main.file_read := inr speech;
     Main.uuid4_hex := "7c9e6679742540de944be07fc1f90ae7" |}.

Definition request_silent : Main.Request :=
  {| Main.file_read := inr silence;
     Main.uuid4_hex := "3f2504e04f8941d39a0c0305e82c3301" |}.

End Examples.

(* ================================================================== *)
(** * Vocabulary of the further properties *)
(* ================================================================== *)
Module Props.

(** The character [c] does not occur in [s]. *)
Fixpoint lacks (c : ascii) (s : string) : bool :=
  match s with
  | EmptyString => true
  | String x s' => negb (Ascii.eqb x c) && lacks c s'
  end.

(** The number of occurrences of [c] in [s]. *)
Fixpoint count_char (c : ascii) (s : string) : nat :=
  match s with
  | EmptyString => 0
  | String x s' => (if Ascii.eqb x c then 1 else 0) + count_char c s'
  end.

(** [s[k:]] *)
Fixpoint drop_str (k : nat) (s : string) : string :=
  match k, s with
  | O, _ => s
  | S k', String _ s' => drop_str k' s'
  | S _, EmptyString => EmptyString
  end.

(** [out] is the entry search_duckduckgo makes of the text hit [hit]. *)
Definition formatted_text (hit : dict) (out : pyval) : Prop :=
  exists t b l,
    dict_get "title" hit = Some t /\
    dict_get "body" hit = Some b /\
    dict_get "link" hit = Some l /\
    out = PyDict [("title", t); ("snippet", b); ("link", l)].

(** [out] is the entry search_duckduckgo makes of the news hit [hit]. *)
Definition formatted_news (hit : dict) (out : pyval) : Prop :=
  exists t b l,
    dict_get "title" hit = Some t /\
    dict_get "body" hit = Some b /\
    dict_get "link" hit = Some l /\
    out = PyDict [("title", t); ("snippet", b); ("link", l);
                  ("date", match dict_get "date" hit with
                           | Some d => d
                           | None => PyStr EmptyString
                           end)].

(** The conditions under which get_news_urls keeps a URL, spelled out. *)
Definition kept (url : string) : Prop :=
  str_in "http" url = true /\
  str_in "msn" url = false /\
  forall remove, In remove Data.remove_url -> str_in remove url = false.

(** The path of the response audio of a request. *)
Definition audio_path (req : Main.Request) : string :=
  "static/" +:+ Main.audio_filename req.



(** A page with more links than are asked for. *)
Definition world_many_links : Data.World :=
  {| Data.ddgs_enter := None;
     Data.ddgs_text := fun _ _ => inr [];
     Data.ddgs_news := fun _ _ => inr [];
     Data.requests_get := fun _ _ => inr "<html>";
     Data.soup_hrefs := fun _ =>
       inr ["/url?q=https://a.example.com/1&sa=U";
            "/url?q=https://www.google.com/preferences&sa=U";
            "/url?q=https://a.example.com/1&sa=X";
            "/url?q=https://b.example.com/2&sa=U";
            "/url?q=https://www.msn.com/3&sa=U";
            "#top"];
     Data.article_fetch := fun _ => inl (OtherError "Article `download()` failed");
     Data.yf_history := fun _ _ _ => inr Examples.empty_frame |}.

Definition blob : Data.TextBlob :=
  {| Data.noun_phrases := fun _ => inr ["apple stock"; "apple stock"];
     Data.tags := fun _ =>
       inr [("Apple", "NNP"); ("stock", "NN"); ("is", "VBZ");
            ("rising", "VBG"); ("fast", "RB"); ("stock", "NN")] |}.

(** A tagger that meets short words with accents. *)
Definition blob_accents : Data.TextBlob :=
  {| Data.noun_phrases := fun _ => inr [];
     Data.tags := fun _ =>
       inr [("née", "NN"); ("日本語", "NN"); ("naïve", "JJ"); ("stock", "NN")] |}.

End Props.

(* ================================================================== *)
(** * The host of a URL *)
(* ================================================================== *)
Module Url.

(** The text after the first "//". *)
Fixpoint after_double_slash (s : string) : option string :=
  match s with
  | EmptyString => None
  | String c s' =>
      match s' with
      | EmptyString => None
      | String d rest =>
          if Ascii.eqb c "/" && Ascii.eqb d "/" then Some rest
          else after_double_slash s'
      end
  end.

(** The authority ends at the first "/", "?" or "#". *)
Definition ends_authority (c : ascii) : bool :=
  Ascii.eqb c "/" || Ascii.eqb c "?" || Ascii.eqb c "#".

Fixpoint take_until (stop : ascii -> bool) (s : string) : string :=
  match s with
  | EmptyString => EmptyString
  | String c s' => if stop c then EmptyString else String c (take_until stop s')
  end.

Definition url_authority (url : string) : option string :=
  match after_double_slash url with
  | Some rest => Some (take_until ends_authority rest)
  | None => None
  end.

(** The host component: the authority without the user information (up
    to the last "@") and without the port (from the first ":" on; a
    bracketed IPv6 literal is not provided for). *)
Definition url_host (url : string) : option string :=
  match url_authority url with
  | Some authority =>
      let hostport := default authority (last (split "@" authority)) in
      Some (default EmptyString (head (split ":" hostport)))
  | None => None
  end.

(** A host written bare: no user information, port, query or fragment
    sticks to it. *)
Definition bare_host (host : string) : bool :=
  Props.lacks "/" host && Props.lacks "?" host && Props.lacks "#" host
  && Props.lacks "@" host && Props.lacks ":" host.

(** The reading of get_news_summary under examination: for every URL
    whose article is fetched, a record of the four fields whose source is
    the host component of the URL. *)
Definition summary_source_is_host : Prop :=
  forall (w : Data.World) (url : string) (article : Data.Article),
    Data.article_fetch w url = inr article ->
    exists summary host,
      url_host url = Some host /\
      Data.get_news_summary w url
        = PyDict [("title", PyStr (Data.title article));
                  ("summary", PyStr summary);
                  ("source", PyStr host);
                  ("url", PyStr url)] /\
      summary = (if str_truthy (Data.meta_description article)
                 then Data.meta_description article
                 else slice_to 250 (Data.text article)).

End Url.

(* ================================================================== *)
(** * Proof steps for the body of transcribe_audio *)
(* ================================================================== *)

(** Case analysis on the next call whose outcome decides how the body of
    the handler goes on. *)
Ltac next_call H :=
  match type of H with
  | context [match ?x with _ => _ end] =>
      lazymatch x with
      | context [match _ with _ => _ end] => fail
      | _ => destruct x eqn:?
      end
  end.

Ltac unfold_body H :=
  unfold Main.transcribe_body, Main.mbind, Main.lift, Main.lift_opt,
    Main.fs_open_wb, Main.fs_write, Main.fs_read, Main.JSONResponse in H;
  cbn [Main.files Main.written] in H.

(** All the ways the body can go, one goal for each. *)
Ltac body_cases H := unfold_body H; repeat next_call H.

(** What a read of a path just written returns. *)
Ltac read_back :=
  repeat match goal with
         | H : <[?k:=_]> _ !! ?k = Some _ |- _ =>
             rewrite lookup_insert_eq in H; injection H as <-
         | H : <[?k:=_]> _ !! ?k = None |- _ =>
             rewrite lookup_insert_eq in H; discriminate H
         end.

(* ================================================================== *)
(** * Facts about the string methods *)
(* ================================================================== *)
Section StringFacts.

(** The two equations of [+:+], which the reduction tactics leave folded. *)
Lemma append_nil_l (s : string) : EmptyString +:+ s = s.
Proof. reflexivity. Qed.

Lemma append_cons (c : ascii) (a b : string) : String c a +:+ b = String c (a +:+ b).
Proof. reflexivity. Qed.

Lemma append_empty_r (s : string) : s +:+ EmptyString = s.
Proof.
  induction s as [|c s IH]; [reflexivity |].
  now rewrite append_cons, IH.
Qed.

Lemma append_assoc (a b c : string) : (a +:+ b) +:+ c = a +:+ (b +:+ c).
Proof.
  induction a as [|x a IH]; [reflexivity |].
  now rewrite !append_cons, IH.
Qed.

Lemma append_snoc (cur : string) (c : ascii) (s : string) :
  (cur +:+ String c EmptyString) +:+ s = cur +:+ String c s.
Proof. now rewrite append_assoc. Qed.

Lemma no_slash_append (a b : string) :
  Spec.no_slash (a +:+ b) = Spec.no_slash a && Spec.no_slash b.
Proof.
  induction a as [|x a IH]; [reflexivity |].
  rewrite append_cons. cbn [Spec.no_slash].
  rewrite IH. now rewrite andb_assoc.
Qed.

(** A character other than "/" does not start an occurrence of "/". *)
Lemma prefix_slash_other (c : ascii) (s : string) :
  Ascii.eqb c "/" = false -> String.prefix "/" (String c s) = false.
Proof.
  intros Hc. cbn -[ascii_dec]. destruct (ascii_dec "/" c) as [E|E]; [|reflexivity].
  subst c. now rewrite Ascii.eqb_refl in Hc.
Qed.

Lemma prefix_slash_here (s : string) : String.prefix "/" (String "/" s) = true.
Proof.
  cbn -[ascii_dec]. destruct (ascii_dec "/" "/") as [E|E]; [now destruct s | congruence].
Qed.

(** [split] never returns the empty list. *)
Lemma split_go_not_nil (sep : string) (s : string) :
  forall skip cur, split_go sep skip cur s <> [].
Proof.
  induction s as [|c s IH]; intros skip cur; cbn [split_go]; [easy |].
  destruct skip as [|k]; [| apply IH].
  destruct (String.prefix sep (String c s)); [easy | apply IH].
Qed.

Lemma split_not_nil (sep s : string) : split sep s <> [].
Proof. apply split_go_not_nil. Qed.

Example split_url_example :
  split "/" "https://a.b/c/d/" = ["https:"; EmptyString; "a.b"; "c"; "d"; EmptyString].
Proof. reflexivity. Qed.

Example split_overlap_example : split "aa" "aaa" = [EmptyString; "a"].
Proof. reflexivity. Qed.

Example filter_url_of_example :
  Data.filter_url_of "/url?q=https://news.example.com/a&sa=U&ved=2" = "https://news.example.com/a".
Proof. reflexivity. Qed.

Example keep_url_example :
  Data.keep_url "https://news.example.com/a" = true /\
  Data.keep_url "https://www.msn.com/a" = false /\
  Data.keep_url "https://support.google.com/a" = false.
Proof. repeat split. Qed.

(** A piece without "/" followed by "/" is cut off as one element. *)
Lemma split_go_slash_piece (a : string) :
  forall cur rest,
    Spec.no_slash a = true ->
    split_go "/" 0 cur (a +:+ String "/" rest)
      = (cur +:+ a) :: split_go "/" 0 EmptyString rest.
Proof.
  induction a as [|c a IH]; intros cur rest Ha.
  - rewrite append_nil_l, append_empty_r.
    cbn [split_go]. rewrite prefix_slash_here. reflexivity.
  - cbn [Spec.no_slash] in Ha. apply andb_prop in Ha as [Hc Ha].
    apply negb_true_iff in Hc.
    rewrite append_cons. cbn [split_go].
    rewrite (prefix_slash_other _ _ Hc).
    rewrite (IH _ _ Ha). now rewrite append_snoc.
Qed.

(** A piece without "/" at the end of the string is the last element. *)
Lemma split_go_slash_last (a : string) :
  forall cur, Spec.no_slash a = true -> split_go "/" 0 cur a = [cur +:+ a].
Proof.
  induction a as [|c a IH]; intros cur Ha.
  - cbn. now rewrite append_empty_r.
  - cbn [Spec.no_slash] in Ha. apply andb_prop in Ha as [Hc Ha].
    apply negb_true_iff in Hc.
    cbn [split_go]. rewrite (prefix_slash_other _ _ Hc).
    rewrite (IH _ Ha). now rewrite append_snoc.
Qed.

(** [url.split('/')[2]] on scheme://host/path is the host. *)
Lemma split_url_host (scheme host path : string) :
  Spec.no_slash scheme = true ->
  Spec.no_slash host = true ->
  Spec.path_like path = true ->
  list_item (split "/" (scheme +:+ "://" +:+ host +:+ path)) 2 = inr host.
Proof.
  intros Hs Hh Hp. unfold split.
  replace (scheme +:+ "://" +:+ host +:+ path)
    with ((scheme +:+ ":") +:+ String "/" (EmptyString +:+ String "/" (host +:+ path)))
    by (now rewrite append_assoc, append_nil_l).
  rewrite split_go_slash_piece
    by (rewrite no_slash_append, Hs; reflexivity).
  rewrite split_go_slash_piece by reflexivity.
  destruct path as [|c path].
  - rewrite (append_empty_r host), split_go_slash_last by exact Hh. reflexivity.
  - cbn [Spec.path_like] in Hp. apply Ascii.eqb_eq in Hp. subst c.
    rewrite split_go_slash_piece by exact Hh. reflexivity.
Qed.

(** [s[:n]] has [min n (len s)] characters and starts [s]. *)
Lemma slice_to_len (s : string) :
  forall n, len (slice_to n s) = Nat.min n (len s).
Proof.
  induction s as [|c s IH]; intros n; cbn [slice_to len]; [now destruct n |].
  destruct (is_continuation c) eqn:Hc; cbn [len]; rewrite ?Hc.
  - apply IH.
  - destruct n as [|k]; cbn [len]; rewrite ?Hc; [reflexivity |].
    rewrite IH. reflexivity.
Qed.

Lemma slice_to_prefix (s : string) :
  forall n, String.prefix (slice_to n s) s = true.
Proof.
  induction s as [|c s IH]; intros n; cbn [slice_to]; [reflexivity |].
  destruct (is_continuation c); [| destruct n as [|k]; [reflexivity |]];
    cbn -[ascii_dec]; (destruct (ascii_dec c c) as [_|E]; [apply IH | congruence]).
Qed.

Example len_accents :
  len "née" = 3 /\ String.length "née" = 4 /\ len "日本語" = 3 /\
  slice_to 2 "ééé" = "éé" /\ slice_to 0 "é" = EmptyString.
Proof. repeat split. Qed.

End StringFacts.

(* ================================================================== *)
(** * The two supervisor entry points *)
(* ================================================================== *)

(** C1: the claim is that ma.py and main.py hand the compiled supervisor
    the same payload shape, a conversation keyed "messages" holding the
    query as a User turn with string content.  For every query the payload
    of ma.py has that shape, and the payload of main.py does not: its only
    key is "Message" and the content of its turn is a set holding the
    query, not the query string. *)
Theorem process_user_query_payloads_diverge (query : string) :
  (forall app_invoke,
      Ma.process_user_query app_invoke query = app_invoke (Ma.invoke_payload query)) /\
  (forall w,
      Main.process_user_query w query
        = Main.app_agent_invoke w (Main.invoke_payload query)) /\
  Spec.conversation_payload query (Ma.invoke_payload query) = true /\
  Spec.conversation_payload query (Main.invoke_payload query) = false /\
  Spec.field "messages" (Main.invoke_payload query) = None /\
  Spec.field "Message" (Main.invoke_payload query)
    = Some (PyList [PyDict [("role", PyStr "user");
                            ("content", PySet [PyStr query])]]).
Proof.
  repeat split.
  cbn. now rewrite String.eqb_refl.
Qed.

(* ================================================================== *)
(** * get_news_summary *)
(* ================================================================== *)

Lemma str_truthy_false (s : string) : str_truthy s = false <-> s = EmptyString.
Proof. destruct s; cbn; split; congruence. Qed.

(* ================================================================== *)
(** * fetch_stock_history *)
(* ================================================================== *)

(** C2: when the lookup returns an empty result set, fetch_stock_history
    returns status "error", the message "No data found for the given
    period." (which is not empty) and a null data payload. *)
Theorem fetch_stock_history_no_data (w : Data.World)
    (ticker start_date end_date : string) (history : Data.DataFrame) :
  Data.yf_history w ticker start_date end_date = inr history ->
  Data.df_empty history = true ->
  Data.fetch_stock_history w ticker start_date end_date
    = PyDict [("status", PyStr "error");
              ("message", PyStr "No data found for the given period.");
              ("data", PyNone)] /\
  Spec.field "status" (Data.fetch_stock_history w ticker start_date end_date)
    = Some (PyStr "error") /\
  (exists msg,
      Spec.field "message" (Data.fetch_stock_history w ticker start_date end_date)
        = Some (PyStr msg) /\ msg <> EmptyString) /\
  Spec.field "data" (Data.fetch_stock_history w ticker start_date end_date)
    = Some PyNone.
Proof.
  intros Hhist Hempty.
  unfold Data.fetch_stock_history. rewrite Hhist. cbn [bind]. rewrite Hempty.
  cbn [ret]. repeat split.
  eexists. split; [reflexivity | discriminate].
Qed.

Lemma fetch_stock_history_no_data_witness :
  Data.fetch_stock_history Examples.world_up "ZZZZINVALID" "2024-01-01" "2024-03-01"
    = PyDict [("status", PyStr "error");
              ("message", PyStr "No data found for the given period.");
              ("data", PyNone)].
Proof.
  exact (proj1 (fetch_stock_history_no_data Examples.world_up
                  "ZZZZINVALID" "2024-01-01" "2024-03-01" Examples.empty_frame
                  eq_refl eq_refl)).
Defined.

(** Whatever makes fetch_stock_history report an error, the data payload
    is null. *)
Lemma fetch_stock_history_error_data (w : Data.World) (ticker start_date end_date : string) :
  Spec.field "status" (Data.fetch_stock_history w ticker start_date end_date)
    = Some (PyStr "error") ->
  Spec.field "data" (Data.fetch_stock_history w ticker start_date end_date)
    = Some PyNone.
Proof.
  unfold Data.fetch_stock_history.
  destruct (Data.yf_history w ticker start_date end_date) as [e|history];
    cbn [bind]; [reflexivity |].
  destruct (Data.df_empty history); cbn; [reflexivity | discriminate].
Qed.

(** ** The records of a success payload *)

Lemma keys_dict_set (k : string) (v : pyval) (d : dict) (x : string) :
  In x (keys (Data.dict_set k v d)) <-> x = k \/ In x (keys d).
Proof.
  induction d as [|[k' v'] d IH]; cbn [Data.dict_set keys map fst In].
  - intuition congruence.
  - destruct (String.eqb_spec k k') as [->|Hne]; cbn [map fst In].
    + intuition congruence.
    + fold (keys (Data.dict_set k v d)). fold (keys d). rewrite IH. intuition congruence.
Qed.

Lemma keys_fold_dict_set (l : list (string * pyval)) :
  forall (d : dict) (x : string),
    In x (keys (fold_left (fun d kv => Data.dict_set (fst kv) (snd kv) d) l d))
    <-> In x (keys d) \/ In x (map fst l).
Proof.
  induction l as [|[k v] l IH]; intros d x; cbn [fold_left map fst snd In].
  - intuition.
  - rewrite IH, keys_dict_set. intuition congruence.
Qed.

Lemma in_fst_zip (ks : list string) :
  forall (vs : list pyval) (x : string), In x (map fst (zip ks vs)) -> In x ks.
Proof.
  induction ks as [|k ks IH]; intros [|v vs] x; cbn; try tauto.
  intros [->|H]; [now left | right; eauto].
Qed.

Lemma fst_zip_full (ks : list string) :
  forall (vs : list pyval), length vs = length ks -> map fst (zip ks vs) = ks.
Proof.
  induction ks as [|k ks IH]; intros [|v vs] Hlen; cbn in *; try congruence.
  f_equal. apply IH. congruence.
Qed.

(** A record made by [dict(zip(columns, cells))] is keyed by columns
    only, and by all of them when the row has a cell for each. *)
Lemma keys_dict_of_zip (ks : list string) (vs : list pyval) (x : string) :
  In x (keys (Data.dict_of_zip ks vs)) -> In x ks.
Proof.
  unfold Data.dict_of_zip. rewrite keys_fold_dict_set.
  intros [[]|H]. eapply in_fst_zip, H.
Qed.

Lemma keys_dict_of_zip_full (ks : list string) (vs : list pyval) (x : string) :
  length vs = length ks ->
  In x ks -> In x (keys (Data.dict_of_zip ks vs)).
Proof.
  intros Hlen Hx. unfold Data.dict_of_zip. rewrite keys_fold_dict_set.
  right. now rewrite fst_zip_full.
Qed.

(** C3, as stated, fails on the frames yfinance returns: the trading day
    is the row index, and the records of the success payload are keyed by
    the columns alone. *)
Lemma fetch_stock_history_records_lack_date : ~ Spec.daily_records_with_date.
Proof.
  intros claim.
  destruct (claim Examples.world_up "AAPL" "2024-01-01" "2024-03-01" _ eq_refl)
    as [_ Hrec].
  destruct (Hrec _ (or_introl eq_refl)) as [Hdate _].
  vm_compute in Hdate. discriminate.
Qed.

(** C3, amended: a success payload is a non-empty list with one record
    per row of the returned frame, in row order; every record is keyed by
    column labels of the frame only (the index label, the date of a
    yfinance frame, is not a field), and by every column label, such as
    Close, when the row has a cell for each column. *)
Theorem fetch_stock_history_success_records (w : Data.World)
    (ticker start_date end_date : string) (data : list pyval) :
  Data.fetch_stock_history w ticker start_date end_date
    = PyDict [("status", PyStr "success"); ("data", PyList data)] ->
  exists history,
    Data.yf_history w ticker start_date end_date = inr history /\
    data <> [] /\
    length data = length (Data.rows history) /\
    (forall i row,
        Data.rows history !! i = Some row ->
        exists d,
          data !! i = Some (PyDict d) /\
          d = Data.dict_of_zip (Data.columns history) (snd row) /\
          (forall k, In k (keys d) -> In k (Data.columns history)) /\
          (length (snd row) = length (Data.columns history) ->
           forall k, In k (Data.columns history) -> In k (keys d))) /\
    (forall rec, In rec data ->
        exists d, rec = PyDict d /\
                  forall k, In k (keys d) -> In k (Data.columns history)).
Proof.
  unfold Data.fetch_stock_history.
  destruct (Data.yf_history w ticker start_date end_date) as [e|history];
    cbn [bind]; [discriminate |].
  destruct (Data.df_empty history) eqn:Hempty; cbn [ret]; [discriminate |].
  intros [= <-]. exists history. split; [reflexivity |].
  unfold Data.df_empty in Hempty. apply orb_false_elim in Hempty as [Hrows _].
  apply Nat.eqb_neq in Hrows.
  unfold Data.to_dict_records.
  split; [| split; [| split]].
  - intros Hnil. apply (f_equal length) in Hnil.
    rewrite length_map in Hnil. cbn in Hnil. contradiction.
  - apply length_map.
  - intros i row Hrow. eexists. split; [| split; [reflexivity | split]].
    + rewrite list_lookup_fmap, Hrow. reflexivity.
    + intros k. apply keys_dict_of_zip.
    + intros Hlen k. now apply keys_dict_of_zip_full.
  - intros rec Hin. apply in_map_iff in Hin as (row & <- & _).
    eexists. split; [reflexivity |]. intros k. apply keys_dict_of_zip.
Qed.

Lemma fetch_stock_history_success_records_witness :
  exists history,
    Data.yf_history Examples.world_up "AAPL" "2024-01-01" "2024-03-01" = inr history /\
    Data.columns history = Examples.yf_columns.
Proof.
  destruct (fetch_stock_history_success_records Examples.world_up
              "AAPL" "2024-01-01" "2024-03-01" _ eq_refl)
    as (history & Hhist & _).
  exists history. split; [exact Hhist |].
  injection Hhist as <-. reflexivity.
Defined.

(* ================================================================== *)
(** * get_news_urls and search_duckduckgo *)
(* ================================================================== *)




(** get_news_summary returns None or a complete record. *)
Lemma get_news_summary_cases (w : Data.World) (url : string) :
  Data.get_news_summary w url = PyNone \/
  Spec.summary_record (Data.get_news_summary w url).
Proof.
  unfold Data.get_news_summary.
  destruct (Data.article_fetch w url) as [e|article]; cbn [bind]; [now left |].
  destruct (list_item (split "/" url) 2) as [e|source]; cbn [bind ret]; [now left |].
  right. unfold Spec.summary_record. eauto.
Qed.

(** The summaries kept are those that are not None, in URL order. *)
Lemma collect_summaries_filter (w : Data.World) (news_urls : list string) :
  Data.collect_summaries w news_urls
    = List.filter (fun v => negb (Spec.is_none v)) (map (Data.get_news_summary w) news_urls).
Proof.
  induction news_urls as [|url rest IH]; cbn [Data.collect_summaries map List.filter];
    [reflexivity |].
  destruct (get_news_summary_cases w url) as [Hnone|(t & s & src & u & Hrec)].
  - rewrite Hnone. cbn. exact IH.
  - rewrite Hrec. cbn. now rewrite IH.
Qed.




(** The result of search_duckduckgo, by cases on the DuckDuckGo part of
    its body. *)
Lemma search_duckduckgo_cases (w : Data.World) (query : string) :
  (exists e, Data.search_duckduckgo w query = Spec.error_result e) \/
  (exists text_results news_results text_out news_out,
      Data.ddgs_enter w = None /\
      Data.ddgs_text w query 5 = inr text_results /\
      Data.ddgs_news w query 3 = inr news_results /\
      Data.map_res Data.format_text_result text_results = inr text_out /\
      Data.map_res Data.format_news_result news_results = inr news_out /\
      Data.search_duckduckgo w query
        = Spec.success_result text_out news_out
            (Data.collect_summaries w (Data.get_news_urls w query 5))).
Proof.
  unfold Data.search_duckduckgo.
  destruct (Data.ddgs_enter w) as [e|]; cbn [bind raise ret]; [left; eauto |].
  destruct (Data.ddgs_text w query 5) as [e|text_results]; cbn [bind]; [left; eauto |].
  destruct (Data.ddgs_news w query 3) as [e|news_results]; cbn [bind]; [left; eauto |].
  destruct (Data.map_res Data.format_text_result text_results) as [e|text_out] eqn:Ht;
    cbn [bind]; [left; eauto |].
  destruct (Data.map_res Data.format_news_result news_results) as [e|news_out] eqn:Hn;
    cbn [bind ret]; [left; eauto |].
  right. exists text_results, news_results, text_out, news_out.
  repeat split; solve [reflexivity | assumption].
Qed.

(** C5: search_duckduckgo returns either a success result whose payload
    has the three fields text_results, news_results and news_summaries,
    each a list, or an error result made of the status, the message and a
    null payload; nothing in between. *)
Theorem search_duckduckgo_success_or_error (w : Data.World) (query : string) :
  (exists text_out news_out news_summaries,
      Data.search_duckduckgo w query
        = PyDict [("status", PyStr "success");
                  ("results", PyDict [("text_results", PyList text_out);
                                      ("news_results", PyList news_out);
                                      ("news_summaries", PyList news_summaries)])]) \/
  (exists msg,
      Data.search_duckduckgo w query
        = PyDict [("status", PyStr "error");
                  ("message", PyStr msg);
                  ("results", PyNone)] /\
      Spec.results_field "text_results" (Data.search_duckduckgo w query) = None /\
      Spec.results_field "news_results" (Data.search_duckduckgo w query) = None /\
      Spec.results_field "news_summaries" (Data.search_duckduckgo w query) = None).
Proof.
  destruct (search_duckduckgo_cases w query)
    as [[e He]|(tr & nr & text_out & news_out & _ & _ & _ & _ & _ & Hok)].
  - right. exists (str_of_exn e). rewrite He. repeat split.
  - left. rewrite Hok. unfold Spec.success_result. eauto.
Qed.


(* ================================================================== *)
(** * transcribe_audio *)
(* ================================================================== *)

(** What the body returns when no call raises. *)
Lemma transcribe_body_returns (w : Main.World) (req : Main.Request) (fs fs' : Main.FS)
    (v : pyval) :
  Main.transcribe_body w req fs = (inr v, fs') ->
  exists text response trace,
    Main.process_user_query w text = inr response /\
    getitem response "messages" = inr (PyList trace) /\
    v = PyDict [("transcription", PyStr text);
                ("response", Main.scan_final_response (rev trace));
                ("audio_url", PyStr ("/static/" +:+ Main.audio_filename req))].
Proof.
  intros H. unfold_body H.
  repeat (next_call H; try discriminate).
  match goal with
  | Hr : reversed ?m = inr _ |- _ =>
      destruct m; try discriminate; injection Hr as <-
  end.
  injection H as <- <-. eauto 6.
Qed.

(** The scan from the end with [break] finds the last Assistant turn. *)
Lemma scan_final_response_last (trace : list pyval) :
  Main.scan_final_response (rev trace)
    = default (PyStr EmptyString) (Spec.last_assistant_content trace).
Proof.
  unfold Spec.last_assistant_content.
  induction trace as [|turn trace IH] using rev_ind; [reflexivity |].
  rewrite rev_unit, omap_app. cbn [omap list_omap].
  destruct turn as [| | | | | |cls content];
    try (cbn; rewrite app_nil_r; exact IH).
  destruct cls; try (cbn; rewrite app_nil_r; exact IH).
  cbn. now rewrite last_snoc.
Qed.

Lemma last_assistant_content_split (pre post : list pyval) (content : pyval) :
  Forall (fun turn => Spec.assistant_content turn = None) post ->
  Spec.last_assistant_content (pre ++ PyMsg AIMessage content :: post) = Some content.
Proof.
  intros Hpost. unfold Spec.last_assistant_content.
  rewrite omap_app. cbn [omap list_omap Spec.assistant_content].
  replace (omap Spec.assistant_content post) with (@nil pyval).
  - now rewrite last_snoc.
  - induction Hpost as [|turn post Hturn _ IH]; [reflexivity |].
    cbn [omap list_omap]. now rewrite Hturn.
Qed.

(** C6: /transcribe/ always returns an object, whose fields are exactly
    transcription, response and audio_url, or exactly error; when the
    body raises UnknownValueError (unintelligible audio) the object is the
    one-field error object, without response or audio_url. *)
Theorem transcribe_audio_response_shape (w : Main.World) (req : Main.Request)
    (fs : Main.FS) :
  exists d,
    fst (Main.transcribe_audio w req fs) = inr (PyDict d) /\
    (keys d = ["transcription"; "response"; "audio_url"] \/ keys d = ["error"]) /\
    (fst (Main.transcribe_body w req fs) = inl UnknownValueError ->
     d = [("error", PyStr "Google Speech Recognition could not understand audio")] /\
     dict_get "response" d = None /\
     dict_get "audio_url" d = None).
Proof.
  unfold Main.transcribe_audio, Main.try_except.
  destruct (Main.transcribe_body w req fs) as [[e|v] fs'] eqn:Hbody; cbn [fst].
  - destruct e; (eexists; split; [reflexivity |]; split; [now right |]);
      first [discriminate | intros _; repeat split].
  - destruct (transcribe_body_returns _ _ _ _ _ Hbody)
      as (text & response & trace & _ & _ & ->).
    eexists. split; [reflexivity |]. split; [left; reflexivity | discriminate].
Qed.

Lemma transcribe_audio_response_shape_witness :
  Main.response_of Examples.studio Examples.request_silent Main.fs_init
    = PyDict [("error", PyStr "Google Speech Recognition could not understand audio")].
Proof.
  destruct (transcribe_audio_response_shape
              Examples.studio Examples.request_silent Main.fs_init)
    as (d & Hd & _ & Hsilent).
  destruct (Hsilent eq_refl) as [-> _].
  unfold Main.response_of. now rewrite Hd.
Defined.

(** C7: whenever the returned object has a response field, the supervisor
    was invoked on the transcribed text and returned a trace, and the
    response is the content of the last Assistant turn of that trace (the
    empty string when the trace has none). *)
Theorem transcribe_audio_response_is_last_assistant (w : Main.World)
    (req : Main.Request) (fs : Main.FS) (d : dict) (v : pyval) :
  fst (Main.transcribe_audio w req fs) = inr (PyDict d) ->
  dict_get "response" d = Some v ->
  exists text response trace,
    dict_get "transcription" d = Some (PyStr text) /\
    Main.process_user_query w text = inr response /\
    Spec.field "messages" response = Some (PyList trace) /\
    v = default (PyStr EmptyString) (Spec.last_assistant_content trace) /\
    (forall pre content post,
        trace = pre ++ PyMsg AIMessage content :: post ->
        Forall (fun turn => Spec.assistant_content turn = None) post ->
        v = content).
Proof.
  unfold Main.transcribe_audio, Main.try_except.
  destruct (Main.transcribe_body w req fs) as [[e|v'] fs'] eqn:Hbody; cbn [fst].
  - intros [= Hd] Hresp. destruct e; injection Hd as <-; discriminate.
  - destruct (transcribe_body_returns _ _ _ _ _ Hbody)
      as (text & response & trace & Hquery & Hmsgs & ->).
    intros [= <-] [= <-].
    exists text, response, trace.
    assert (Hlast : Main.scan_final_response (rev trace)
                    = default (PyStr EmptyString) (Spec.last_assistant_content trace))
      by apply scan_final_response_last.
    repeat split.
    + exact Hquery.
    + destruct response; try discriminate. cbn in Hmsgs |- *.
      unfold dict_item in Hmsgs. destruct (dict_get "messages" items); [| discriminate].
      now injection Hmsgs as ->.
    + exact Hlast.
    + intros pre content post -> Hpost. rewrite Hlast.
      now rewrite (last_assistant_content_split _ _ _ Hpost).
Qed.

Lemma transcribe_audio_response_is_last_assistant_witness :
  exists text response trace,
    Main.process_user_query Examples.studio text = inr response /\
    Spec.field "messages" response = Some (PyList trace) /\
    PyStr "AAPL closed at 185."
      = default (PyStr EmptyString) (Spec.last_assistant_content trace).
Proof.
  destruct (transcribe_audio_response_is_last_assistant
              Examples.studio Examples.request_a Main.fs_init
              [("transcription", PyStr "price of AAPL");
               ("response", PyStr "AAPL closed at 185.");
               ("audio_url", PyStr "/static/response_0f8fad5bd9cb469fa16570867728950e.mp3")]
              (PyStr "AAPL closed at 185.") eq_refl eq_refl)
    as (text & response & trace & _ & Hq & Hm & Hv & _).
  exists text, response, trace. repeat split; assumption.
Defined.

(** ** The paths a request opens for writing *)

(** Every request that gets as far as opening its upload for writing
    opens the same path "temp.wav", whatever its identifier. *)
Lemma transcribe_audio_opens_temp_wav (w : Main.World) (req : Main.Request) :
  Main.os_makedirs w "static" = None ->
  Main.open_wb w "temp.wav" = None ->
  In "temp.wav" (Main.paths_written w req).
Proof.
  intros Hmk Hopen.
  unfold Main.paths_written, Main.transcribe_audio, Main.try_except.
  destruct (Main.transcribe_body w req Main.fs_init) as [r fs'] eqn:Hbody.
  assert (Hin : In "temp.wav" (Main.written fs')).
  { unfold_body Hbody. rewrite Hmk, Hopen in Hbody.
    repeat (next_call Hbody; try discriminate);
      injection Hbody as <- <-; cbn; tauto. }
  destruct r; exact Hin.
Qed.

(** C9: the claim is that every path a request writes carries the
    request's fresh identifier, so that two requests write disjoint sets
    of paths.  Two requests with different identifiers, both served
    without any failure, open "temp.wav" and "converted.wav" alike; only
    the response audio carries the identifier. *)
Theorem transcribe_audio_scratch_paths_shared :
  Main.uuid4_hex Examples.request_a <> Main.uuid4_hex Examples.request_b /\
  Main.paths_written Examples.studio Examples.request_a
    = ["static/response_0f8fad5bd9cb469fa16570867728950e.mp3";
       "converted.wav"; "temp.wav"] /\
  Main.paths_written Examples.studio Examples.request_b
    = ["static/response_7c9e6679742540de944be07fc1f90ae7.mp3";
       "converted.wav"; "temp.wav"] /\
  ~ (forall path,
        In path (Main.paths_written Examples.studio Examples.request_a) ->
        ~ In path (Main.paths_written Examples.studio Examples.request_b)).
Proof.
  split; [| split; [| split]].
  - intros H. vm_compute in H. discriminate.
  - vm_compute. reflexivity.
  - vm_compute. reflexivity.
  - intros Hdisjoint.
    apply (Hdisjoint "temp.wav");
      apply transcribe_audio_opens_temp_wav; reflexivity.
Qed.

(* ================================================================== *)
(** * Further facts about split *)
(* ================================================================== *)
Section SplitFacts.

Lemma prefix_char (c x : ascii) (s : string) :
  String.prefix (String c EmptyString) (String x s) = Ascii.eqb x c.
Proof.
  cbn -[ascii_dec]. destruct (ascii_dec c x) as [<-|Hne].
  - rewrite Ascii.eqb_refl. now destruct s.
  - symmetry. apply Ascii.eqb_neq. congruence.
Qed.

Lemma lacks_append (c : ascii) (a b : string) :
  Props.lacks c (a +:+ b) = Props.lacks c a && Props.lacks c b.
Proof.
  induction a as [|x a IH]; [reflexivity |].
  rewrite append_cons. cbn [Props.lacks]. now rewrite IH, andb_assoc.
Qed.

Lemma lacks_str_in (c : ascii) (s : string) :
  Props.lacks c s = true -> str_in (String c EmptyString) s = false.
Proof.
  induction s as [|x s IH]; [reflexivity |].
  cbn [Props.lacks str_in]. intros [Hx Hs]%andb_prop.
  rewrite prefix_char, (IH Hs). apply negb_true_iff in Hx. now rewrite Hx.
Qed.

(** Every piece of a split at a character lacks that character. *)
Lemma split_go_char_pieces (c : ascii) (s : string) :
  forall cur,
    Props.lacks c cur = true ->
    Forall (fun piece => Props.lacks c piece = true)
           (split_go (String c EmptyString) 0 cur s).
Proof.
  induction s as [|x s IH]; intros cur Hcur; cbn [split_go].
  - now constructor.
  - rewrite prefix_char. destruct (Ascii.eqb x c) eqn:Hx.
    + constructor; [exact Hcur | now apply IH].
    + apply IH. rewrite lacks_append, Hcur. cbn. now rewrite Hx.
Qed.

(** A split at a character has one more piece than occurrences. *)
Lemma split_go_char_length (c : ascii) (s : string) :
  forall cur,
    length (split_go (String c EmptyString) 0 cur s) = S (Props.count_char c s).
Proof.
  induction s as [|x s IH]; intros cur; cbn [split_go Props.count_char];
    [reflexivity |].
  rewrite prefix_char. destruct (Ascii.eqb x c); cbn [length]; rewrite IH; lia.
Qed.

(** The piece before the first occurrence of the character. *)
Lemma split_go_char_piece (c : ascii) (a : string) :
  forall cur rest,
    Props.lacks c a = true ->
    split_go (String c EmptyString) 0 cur (a +:+ String c rest)
      = (cur +:+ a) :: split_go (String c EmptyString) 0 EmptyString rest.
Proof.
  induction a as [|x a IH]; intros cur rest Ha.
  - rewrite append_nil_l, append_empty_r. cbn [split_go].
    now rewrite prefix_char, Ascii.eqb_refl.
  - cbn [Props.lacks] in Ha. apply andb_prop in Ha as [Hx Ha].
    apply negb_true_iff in Hx.
    rewrite append_cons. cbn [split_go]. rewrite prefix_char, Hx.
    rewrite (IH _ _ Ha). now rewrite append_snoc.
Qed.

(** The characters of an occurrence still to be dropped are dropped. *)
Lemma split_go_skip (sep u : string) :
  forall cur t,
    split_go sep (String.length u) cur (u +:+ t) = split_go sep 0 cur t.
Proof.
  induction u as [|x u IH]; intros cur t; [reflexivity |].
  rewrite append_cons. cbn [String.length split_go]. apply IH.
Qed.

Lemma prefix_append_self (sep t : string) : String.prefix sep (sep +:+ t) = true.
Proof.
  induction sep as [|x sep IH]; [now destruct t |].
  rewrite append_cons. cbn -[ascii_dec].
  destruct (ascii_dec x x) as [_|Hne]; [exact IH | congruence].
Qed.

(** An occurrence at the head of the string closes the current piece. *)
Lemma split_go_at_sep (x : ascii) (sep' : string) (cur t : string) :
  split_go (String x sep') 0 cur (String x sep' +:+ t)
    = cur :: split_go (String x sep') 0 EmptyString t.
Proof.
  rewrite append_cons. cbn [split_go].
  rewrite <- append_cons, prefix_append_self.
  replace (String.length (String x sep') - 1) with (String.length sep')
    by (cbn [String.length]; lia).
  now rewrite split_go_skip.
Qed.

(** Without an occurrence the string is one piece. *)
Lemma split_go_no_occurrence (sep : string) (t : string) :
  forall cur, str_in sep t = false -> split_go sep 0 cur t = [cur +:+ t].
Proof.
  induction t as [|x t IH]; intros cur Hin.
  - cbn. now rewrite append_empty_r.
  - cbn [str_in] in Hin. apply orb_false_elim in Hin as [Hhere Hlater].
    cbn [split_go]. rewrite Hhere, (IH _ Hlater). now rewrite append_snoc.
Qed.

Lemma prefix_drop (p : string) :
  forall s, String.prefix p s = true ->
            p +:+ Props.drop_str (String.length p) s = s /\
            String.length p <= String.length s.
Proof.
  induction p as [|x p IH]; intros s Hp; [split; [reflexivity | cbn; lia] |].
  destruct s as [|y s]; [discriminate |].
  cbn -[ascii_dec] in Hp. destruct (ascii_dec x y) as [<-|]; [| discriminate].
  destruct (IH _ Hp) as [Heq Hlen].
  rewrite append_cons. cbn [String.length Props.drop_str].
  rewrite Heq. split; [reflexivity | lia].
Qed.

Lemma concat_cons (sep x : string) (l : list string) :
  l <> [] -> String.concat sep (x :: l) = x +:+ sep +:+ String.concat sep l.
Proof. destruct l; [congruence | reflexivity]. Qed.

(** Joining the pieces with the separator gives the string back. *)
Lemma split_go_join (sep : string) (s : string) :
  sep <> EmptyString ->
  forall skip cur,
    skip <= String.length s ->
    String.concat sep (split_go sep skip cur s) = cur +:+ Props.drop_str skip s.
Proof.
  intros Hsep. induction s as [|x s IH]; intros skip cur Hskip.
  - cbn in Hskip. assert (skip = 0) as -> by lia. cbn.
    now rewrite append_empty_r.
  - destruct skip as [|k]; cbn [split_go Props.drop_str].
    + destruct (String.prefix sep (String x s)) eqn:Hp.
      * rewrite concat_cons by apply split_go_not_nil.
        destruct (prefix_drop _ _ Hp) as [Heq Hlen].
        destruct sep as [|y sep']; [congruence |].
        replace (String.length (String y sep') - 1) with (String.length sep')
          by (cbn [String.length]; lia).
        cbn [String.length] in Hlen.
        rewrite IH by lia. rewrite append_nil_l.
        rewrite append_cons in Heq. cbn [Props.drop_str] in Heq.
        injection Heq as -> Heq. now rewrite append_cons, Heq.
      * rewrite IH by lia. cbn [Props.drop_str]. now rewrite append_snoc.
    + cbn [String.length] in Hskip. apply IH. lia.
Qed.

End SplitFacts.

(* ================================================================== *)
(** * Further properties of the news helpers *)
(* ================================================================== *)

(** X1: for a non-empty separator, the pieces of [s.split(sep)] joined
    again with [sep] are [s]. *)
Theorem split_join (sep s : string) :
  sep <> EmptyString -> String.concat sep (split sep s) = s.
Proof.
  intros Hsep. unfold split.
  rewrite split_go_join by (trivial || (cbn; lia)). reflexivity.
Qed.

Lemma split_join_witness :
  split "/" "https://a.b/c/" = ["https:"; EmptyString; "a.b"; "c"; EmptyString] /\
  String.concat "/" (split "/" "https://a.b/c/") = "https://a.b/c/".
Proof.
  split; [reflexivity |].
  apply (split_join "/" "https://a.b/c/"). discriminate.
Defined.

Lemma str_in_lacks (c : ascii) (s : string) :
  str_in (String c EmptyString) s = false -> Props.lacks c s = true.
Proof.
  induction s as [|x s IH]; [reflexivity |].
  cbn [Props.lacks str_in]. rewrite prefix_char.
  intros [Hx Hs]%orb_false_elim. now rewrite Hx, (IH Hs).
Qed.

(** X2: a redirect link "/url?q=<target>&<rest>" (or "/url?q=<target>")
    is unwrapped to its target, when the target holds no "&" and no
    further "/url?q=" follows. *)
Theorem filter_url_of_redirect (target rest : string) :
  str_in "&" target = false ->
  str_in "/url?q=" (target +:+ "&" +:+ rest) = false ->
  Data.filter_url_of ("/url?q=" +:+ target +:+ "&" +:+ rest) = target /\
  (str_in "/url?q=" target = false ->
   Data.filter_url_of ("/url?q=" +:+ target) = target).
Proof.
  intros Hamp Hsep. apply str_in_lacks in Hamp.
  unfold Data.filter_url_of, split. split.
  - rewrite split_go_at_sep, (split_go_no_occurrence _ _ _ Hsep).
    cbn [last default from_option id]. rewrite append_nil_l.
    change ("&" +:+ rest) with (String "&" rest).
    rewrite (split_go_char_piece "&" target _ _ Hamp). reflexivity.
  - intros Hsep'.
    rewrite split_go_at_sep, (split_go_no_occurrence _ _ _ Hsep').
    cbn [last default from_option id]. rewrite append_nil_l.
    rewrite (split_go_no_occurrence "&" target EmptyString)
      by (now apply lacks_str_in).
    reflexivity.
Qed.

Lemma filter_url_of_redirect_witness :
  Data.filter_url_of "/url?q=https://news.example.com/a&sa=U&ved=2"
    = "https://news.example.com/a".
Proof.
  exact (proj1 (filter_url_of_redirect "https://news.example.com/a" "sa=U&ved=2"
                  eq_refl eq_refl)).
Defined.

(** The extracted URL never holds an "&". *)
Lemma filter_url_of_no_amp (url : string) :
  str_in "&" (Data.filter_url_of url) = false.
Proof.
  unfold Data.filter_url_of, split.
  pose proof (split_go_char_pieces "&"
                (default EmptyString (last (split_go "/url?q=" 0 EmptyString url)))
                EmptyString eq_refl) as Hpieces.
  destruct Hpieces as [|piece pieces Hpiece _]; [reflexivity |].
  cbn [head default]. now apply lacks_str_in.
Qed.

Lemma keep_url_kept (url : string) : Data.keep_url url = true -> Props.kept url.
Proof.
  unfold Data.keep_url, Props.kept.
  intros [[Hhttp Hmsn]%andb_prop Hremove]%andb_prop.
  apply negb_true_iff in Hmsn, Hremove.
  repeat split; [exact Hhttp | exact Hmsn |].
  intros remove Hin. destruct (str_in remove url) eqn:E; [| reflexivity].
  assert (existsb (fun remove => str_in remove url) Data.remove_url = true)
    by (apply existsb_exists; eauto).
  congruence.
Qed.

(** What is in the set at the end was there at the start or is the kept
    target of a redirect link of the page. *)
Lemma collect_links_sound (max_results : nat) (hrefs : list string) :
  forall (news_links : gset string) (x : string),
    x ∈ Data.collect_links max_results hrefs news_links ->
    x ∈ news_links \/
    exists url, In url hrefs /\ str_in "/url?q=" url = true /\
                x = Data.filter_url_of url /\ Data.keep_url x = true.
Proof.
  induction hrefs as [|url rest IH]; intros news_links x; cbn [Data.collect_links];
    [now left |].
  assert (Hrest : x ∈ Data.collect_links max_results rest news_links ->
                  x ∈ news_links \/
                  exists url', In url' (url :: rest) /\ str_in "/url?q=" url' = true /\
                               x = Data.filter_url_of url' /\ Data.keep_url x = true).
  { intros H. destruct (IH _ _ H) as [?|(u & ? & ? & ? & ?)]; [now left |].
    right. exists u. repeat split; [now right | assumption ..]. }
  destruct (str_in "/url?q=" url) eqn:Hq; [| exact Hrest].
  destruct (Data.keep_url (Data.filter_url_of url)) eqn:Hk; [| exact Hrest].
  assert (Hnew : x ∈ ({[Data.filter_url_of url]} ∪ news_links : gset string) ->
                 x ∈ news_links \/
                 exists url', In url' (url :: rest) /\ str_in "/url?q=" url' = true /\
                              x = Data.filter_url_of url' /\ Data.keep_url x = true).
  { intros [->%elem_of_singleton|H]%elem_of_union; [| now left].
    right. exists url. repeat split; [now left | assumption ..]. }
  destruct (max_results <=? size ({[Data.filter_url_of url]} ∪ news_links));
    [exact Hnew |].
  intros H. destruct (IH _ _ H) as [H'|(u & ? & ? & ? & ?)]; [now apply Hnew |].
  right. exists u. repeat split; [now right | assumption ..].
Qed.

(** The loop only adds to the set. *)
Lemma collect_links_mono (max_results : nat) (hrefs : list string) :
  forall news_links : gset string,
    news_links ⊆ Data.collect_links max_results hrefs news_links.
Proof.
  induction hrefs as [|url rest IH]; intros news_links; cbn [Data.collect_links];
    [reflexivity |].
  destruct (str_in "/url?q=" url); [| apply IH].
  destruct (Data.keep_url (Data.filter_url_of url)); [| apply IH].
  destruct (max_results <=? size ({[Data.filter_url_of url]} ∪ news_links)).
  - apply union_subseteq_r.
  - etransitivity; [apply union_subseteq_r | apply IH].
Qed.

(** Unless the cap is reached, no kept target is left out. *)
Lemma collect_links_complete (max_results : nat) (hrefs : list string) :
  forall news_links : gset string,
    size (Data.collect_links max_results hrefs news_links) < max_results ->
    forall url,
      In url hrefs -> str_in "/url?q=" url = true ->
      Data.keep_url (Data.filter_url_of url) = true ->
      Data.filter_url_of url ∈ Data.collect_links max_results hrefs news_links.
Proof.
  induction hrefs as [|url rest IH]; intros news_links Hsize u Hin Hq Hk;
    [destruct Hin |].
  cbn [Data.collect_links] in *.
  destruct Hin as [->|Hin].
  - rewrite Hq, Hk in *.
    destruct (Nat.leb_spec max_results
                (size ({[Data.filter_url_of u]} ∪ news_links))) as [Hge|Hlt].
    + lia.
    + apply collect_links_mono. apply elem_of_union_l, elem_of_singleton. reflexivity.
  - destruct (str_in "/url?q=" url); [| now apply IH].
    destruct (Data.keep_url (Data.filter_url_of url)); [| now apply IH].
    destruct (Nat.leb_spec max_results
                (size ({[Data.filter_url_of url]} ∪ news_links))) as [Hge|Hlt].
    + lia.
    + now apply IH.
Qed.

Lemma get_news_urls_elements (w : Data.World) (query : string) (max_results : nat)
    (x : string) :
  In x (Data.get_news_urls w query max_results) ->
  exists html hrefs,
    Data.requests_get w (Data.search_url query) Data.headers = inr html /\
    Data.soup_hrefs w html = inr hrefs /\
    Data.get_news_urls w query max_results
      = elements (Data.collect_links max_results hrefs ∅) /\
    x ∈ Data.collect_links max_results hrefs ∅.
Proof.
  unfold Data.get_news_urls.
  destruct (Data.requests_get w (Data.search_url query) Data.headers) as [e|html];
    cbn [bind]; [intros [] |].
  destruct (Data.soup_hrefs w html) as [e|hrefs] eqn:Hsoup; cbn [bind ret];
    [intros [] |].
  intros Hin. exists html, hrefs.
  split; [reflexivity |]. split; [exact Hsoup |]. split; [reflexivity |].
  now apply elem_of_elements, list_elem_of_In.
Qed.

Lemma get_news_urls_in_kept (w : Data.World) (query : string) (max_results : nat)
    (url : string) :
  In url (Data.get_news_urls w query max_results) ->
  Props.kept url /\ str_in "&" url = false.
Proof.
  intros Hin.
  destruct (get_news_urls_elements _ _ _ _ Hin) as (html & hrefs & _ & _ & _ & Hx).
  destruct (collect_links_sound _ _ _ _ Hx) as [Hempty|(u & _ & _ & -> & Hk)].
  - now apply not_elem_of_empty in Hempty.
  - split; [now apply keep_url_kept | apply filter_url_of_no_amp].
Qed.

(** X3: get_news_urls never returns a URL twice, and every URL it returns
    holds "http", holds neither "msn" nor any of the six Google prefixes,
    and holds no "&". *)
Theorem get_news_urls_kept (w : Data.World) (query : string) (max_results : nat) :
  NoDup (Data.get_news_urls w query max_results) /\
  forall url,
    In url (Data.get_news_urls w query max_results) ->
    Props.kept url /\ str_in "&" url = false.
Proof.
  split; [| apply get_news_urls_in_kept].
  unfold Data.get_news_urls.
  destruct (Data.requests_get w (Data.search_url query) Data.headers) as [e|html];
    cbn [bind]; [constructor |].
  destruct (Data.soup_hrefs w html) as [e|hrefs]; cbn [bind ret]; [constructor |].
  apply NoDup_elements.
Qed.

Lemma get_news_urls_kept_witness :
  Props.kept "https://b.example.com/2" /\
  str_in "&" "https://b.example.com/2" = false.
Proof.
  apply (proj2 (get_news_urls_kept Props.world_many_links "x" 5)).
  vm_compute. tauto.
Defined.

(** X4: once the page is fetched and parsed, every URL get_news_urls
    returns is the unwrapped target of one of the page's "/url?q=" links;
    and when it returns fewer than [max_results] URLs, it returns the
    target of every such link that passes the filter. *)
Theorem get_news_urls_targets (w : Data.World) (query : string) (max_results : nat)
    (html : string) (hrefs : list string) :
  Data.requests_get w (Data.search_url query) Data.headers = inr html ->
  Data.soup_hrefs w html = inr hrefs ->
  (forall x,
      In x (Data.get_news_urls w query max_results) ->
      exists url, In url hrefs /\ str_in "/url?q=" url = true /\
                  x = Data.filter_url_of url) /\
  (length (Data.get_news_urls w query max_results) < max_results ->
   forall url,
     In url hrefs -> str_in "/url?q=" url = true ->
     Data.keep_url (Data.filter_url_of url) = true ->
     In (Data.filter_url_of url) (Data.get_news_urls w query max_results)).
Proof.
  intros Hreq Hsoup.
  assert (Hurls : Data.get_news_urls w query max_results
                  = elements (Data.collect_links max_results hrefs ∅)).
  { unfold Data.get_news_urls. rewrite Hreq. cbn [bind]. now rewrite Hsoup. }
  rewrite Hurls. split.
  - intros x Hin%list_elem_of_In%elem_of_elements.
    destruct (collect_links_sound _ _ _ _ Hin) as [Hempty|(u & ? & ? & ? & _)].
    + now apply not_elem_of_empty in Hempty.
    + eauto.
  - intros Hlen url Hin Hq Hk.
    apply list_elem_of_In, elem_of_elements.
    now apply collect_links_complete.
Qed.

Lemma get_news_urls_targets_witness :
  In "https://b.example.com/2" (Data.get_news_urls Props.world_many_links "x" 5).
Proof.
  destruct (get_news_urls_targets Props.world_many_links "x" 5 _ _ eq_refl eq_refl)
    as [_ Hall].
  apply (Hall ltac:(vm_compute; lia) "/url?q=https://b.example.com/2&sa=U");
    vm_compute; tauto.
Defined.

Lemma collect_links_size_any (max_results : nat) (hrefs : list string) :
  forall news_links : gset string,
    size news_links < Nat.max max_results 1 ->
    size (Data.collect_links max_results hrefs news_links) <= Nat.max max_results 1.
Proof.
  induction hrefs as [|url rest IH]; intros news_links Hlt; cbn [Data.collect_links].
  - lia.
  - destruct (str_in "/url?q=" url); [| now apply IH].
    destruct (Data.keep_url (Data.filter_url_of url)); [| now apply IH].
    assert (Hadd : size ({[Data.filter_url_of url]} ∪ news_links) <= S (size news_links)).
    { rewrite size_union_alt, size_singleton.
      assert (Hsub : size (news_links ∖ {[Data.filter_url_of url]}) <= size news_links).
      { apply subseteq_size, subseteq_difference_l. reflexivity. }
      lia. }
    destruct (Nat.leb_spec max_results
                (size ({[Data.filter_url_of url]} ∪ news_links))) as [Hge|Hlt'].
    + lia.
    + apply IH. lia.
Qed.

(** X5: get_news_urls returns at most [max_results] URLs, and at most one
    when [max_results] is 0: the cap is tested only after a URL has been
    added, so a call with [max_results = 0] can still return one URL. *)
Theorem get_news_urls_at_most :
  (forall (w : Data.World) (query : string) (max_results : nat),
      length (Data.get_news_urls w query max_results) <= Nat.max max_results 1) /\
  Data.get_news_urls Props.world_many_links "x" 0 = ["https://a.example.com/1"].
Proof.
  split; [| reflexivity].
  intros w query max_results. unfold Data.get_news_urls.
  destruct (Data.requests_get w (Data.search_url query) Data.headers) as [e|html];
    cbn [bind]; [cbn; lia |].
  destruct (Data.soup_hrefs w html) as [e|hrefs]; cbn [bind ret]; [cbn; lia |].
  change (size (Data.collect_links max_results hrefs ∅) <= Nat.max max_results 1).
  apply collect_links_size_any. rewrite size_empty. lia.
Qed.

Lemma lacks_replace_char (a b : ascii) (s : string) :
  Ascii.eqb b a = false -> Props.lacks a (replace_char a b s) = true.
Proof.
  intros Hab. induction s as [|x s IH]; [reflexivity |].
  cbn [replace_char Props.lacks]. rewrite IH, andb_true_r.
  destruct (Ascii.eqb x a) eqn:Hx; [now rewrite Hab | now rewrite Hx].
Qed.

Lemma length_append (a b : string) :
  String.length (a +:+ b) = String.length a + String.length b.
Proof.
  induction a as [|x a IH]; [reflexivity |].
  rewrite append_cons. cbn [String.length]. now rewrite IH.
Qed.

Lemma length_replace_char (a b : ascii) (s : string) :
  String.length (replace_char a b s) = String.length s.
Proof. induction s as [|x s IH]; cbn; congruence. Qed.

(** X6: whatever the query, the search URL holds no space, and it is 45
    characters longer than the query. *)
Theorem search_url_no_space (query : string) :
  str_in " " (Data.search_url query) = false /\
  String.length (Data.search_url query) = 45 + String.length query.
Proof.
  unfold Data.search_url. split.
  - apply lacks_str_in. rewrite !lacks_append, lacks_replace_char by reflexivity.
    reflexivity.
  - rewrite !length_append, length_replace_char. cbn [String.length]. lia.
Qed.

(** X7: get_news_summary returns None exactly when the article cannot be
    fetched and parsed, or the URL holds fewer than two "/". *)
Theorem get_news_summary_none (w : Data.World) (url : string) :
  Data.get_news_summary w url = PyNone <->
  (exists e, Data.article_fetch w url = inl e) \/ Props.count_char "/" url < 2.
Proof.
  unfold Data.get_news_summary, list_item, split.
  pose proof (split_go_char_length "/" url EmptyString) as Hlen.
  destruct (Data.article_fetch w url) as [e|article]; cbn [bind].
  - split; [eauto | reflexivity].
  - destruct (split_go "/" 0 EmptyString url !! 2) as [source|] eqn:Hsrc;
      cbn [bind ret raise].
    + apply lookup_lt_Some in Hsrc.
      split; [discriminate | intros [[e He]|Hlt]; [discriminate | lia]].
    + apply lookup_ge_None in Hsrc. split; [right; lia | reflexivity].
Qed.

(** X8: when get_news_summary returns a record, its source is the third
    of the pieces of the URL between "/" and holds no "/", and its url is
    the URL it was given. *)
Theorem get_news_summary_source (w : Data.World) (url source : string) :
  Spec.field "source" (Data.get_news_summary w url) = Some (PyStr source) ->
  split "/" url !! 2 = Some source /\
  str_in "/" source = false /\
  Spec.field "url" (Data.get_news_summary w url) = Some (PyStr url).
Proof.
  unfold Data.get_news_summary, list_item.
  destruct (Data.article_fetch w url) as [e|article]; cbn [bind]; [discriminate |].
  destruct (split "/" url !! 2) as [src|] eqn:Hsrc; cbn [bind ret raise];
    [| discriminate].
  cbn. intros [= ->]. repeat split.
  apply lacks_str_in.
  pose proof (split_go_char_pieces "/" url EmptyString eq_refl) as Hpieces.
  rewrite List.Forall_forall in Hpieces. apply Hpieces.
  apply list_elem_of_In, list_elem_of_lookup. eauto.
Qed.

Lemma get_news_summary_source_witness :
  split "/" "https://news.example.com/markets/aapl" !! 2 = Some "news.example.com".
Proof.
  exact (proj1 (get_news_summary_source Examples.world_up
                  "https://news.example.com/markets/aapl" "news.example.com" eq_refl)).
Defined.

(* ================================================================== *)
(** * Further properties of search_duckduckgo *)
(* ================================================================== *)




Lemma map_res_Forall2 {A B} (f : A -> res B) (l : list A) :
  forall l', Data.map_res f l = inr l' -> Forall2 (fun a b => f a = inr b) l l'.
Proof.
  induction l as [|a l IH]; intros l'; cbn [Data.map_res].
  - intros [= <-]. constructor.
  - destruct (f a) as [e|b] eqn:Hfa; cbn [bind]; [discriminate |].
    destruct (Data.map_res f l) as [e|bs]; cbn [bind ret]; [discriminate |].
    intros [= <-]. constructor; [exact Hfa | now apply IH].
Qed.



Lemma format_text_result_formatted (hit : dict) (out : pyval) :
  Data.format_text_result hit = inr out -> Props.formatted_text hit out.
Proof.
  unfold Data.format_text_result, dict_item, Props.formatted_text.
  destruct (dict_get "title" hit) as [t|]; cbn [bind raise ret]; [| discriminate].
  destruct (dict_get "body" hit) as [b|]; cbn [bind raise ret]; [| discriminate].
  destruct (dict_get "link" hit) as [l|]; cbn [bind raise ret]; [| discriminate].
  intros [= <-]. exists t, b, l. repeat split.
Qed.

Lemma format_news_result_formatted (hit : dict) (out : pyval) :
  Data.format_news_result hit = inr out -> Props.formatted_news hit out.
Proof.
  unfold Data.format_news_result, dict_item, dict_get_default, Props.formatted_news.
  destruct (dict_get "title" hit) as [t|]; cbn [bind raise ret]; [| discriminate].
  destruct (dict_get "body" hit) as [b|]; cbn [bind raise ret]; [| discriminate].
  destruct (dict_get "link" hit) as [l|]; cbn [bind raise ret]; [| discriminate].
  intros [= <-]. exists t, b, l. repeat split.
Qed.

(** X10: in a success result, text_results and news_results hold one
    entry per DuckDuckGo hit, in the order of the hits; an entry carries
    the hit's title, its body under "snippet" and its link, and a news
    entry also the hit's date, or the empty string when the hit has
    none. *)
Theorem search_duckduckgo_entries (w : Data.World) (query : string)
    (text_out news_out news_summaries : list pyval) :
  Data.search_duckduckgo w query
    = Spec.success_result text_out news_out news_summaries ->
  exists hits news,
    Data.ddgs_text w query 5 = inr hits /\
    Data.ddgs_news w query 3 = inr news /\
    Forall2 Props.formatted_text hits text_out /\
    Forall2 Props.formatted_news news news_out.
Proof.
  intros Hres.
  destruct (search_duckduckgo_cases w query)
    as [[e He]|(hits & news & t' & n' & _ & Ht & Hn & Hto & Hno & Hok)].
  - rewrite He in Hres. discriminate.
  - rewrite Hok in Hres. injection Hres as <- <- _.
    exists hits, news. repeat split; [exact Ht | exact Hn | |].
    + eapply Forall2_impl; [apply map_res_Forall2, Hto |].
      apply format_text_result_formatted.
    + eapply Forall2_impl; [apply map_res_Forall2, Hno |].
      apply format_news_result_formatted.
Qed.

Lemma search_duckduckgo_entries_witness :
  exists hits news,
    Data.ddgs_text Examples.world_up "AAPL" 5 = inr hits /\
    Data.ddgs_news Examples.world_up "AAPL" 3 = inr news /\
    length hits = 1 /\ length news = 1.
Proof.
  destruct (search_duckduckgo_entries Examples.world_up "AAPL" _ _ _ eq_refl)
    as (hits & news & Ht & Hn & _ & _).
  exists hits, news. repeat split; [exact Ht | exact Hn | |].
  - now injection Ht as <-.
  - now injection Hn as <-.
Defined.

Lemma get_news_summary_url (w : Data.World) (url : string) :
  Spec.is_none (Data.get_news_summary w url) = false ->
  Spec.field "url" (Data.get_news_summary w url) = Some (PyStr url).
Proof.
  unfold Data.get_news_summary.
  destruct (Data.article_fetch w url) as [e|article]; cbn [bind]; [discriminate |].
  destruct (list_item (split "/" url) 2) as [e|source]; cbn [bind ret];
    [discriminate | reflexivity].
Qed.

(** X11: every summary of a success result is what get_news_summary
    returns for one of the URLs of get_news_urls, carries that URL in its
    url field, and that URL passes the filter of get_news_urls. *)
Theorem search_duckduckgo_summary_urls (w : Data.World) (query : string)
    (text_out news_out news_summaries : list pyval) (summary : pyval) :
  Data.search_duckduckgo w query
    = Spec.success_result text_out news_out news_summaries ->
  In summary news_summaries ->
  exists url,
    In url (Data.get_news_urls w query 5) /\
    summary = Data.get_news_summary w url /\
    Spec.field "url" summary = Some (PyStr url) /\
    Props.kept url.
Proof.
  intros Hres Hin.
  destruct (search_duckduckgo_cases w query)
    as [[e He]|(hits & news & t' & n' & _ & _ & _ & _ & _ & Hok)].
  - rewrite He in Hres. discriminate.
  - rewrite Hok in Hres. injection Hres as _ _ <-.
    rewrite collect_summaries_filter in Hin.
    apply filter_In in Hin as [Hmap Hsome].
    apply in_map_iff in Hmap as (url & <- & Hurl).
    exists url. split; [exact Hurl |]. split; [reflexivity |]. split.
    + apply get_news_summary_url. now apply negb_true_iff.
    + apply (get_news_urls_in_kept w query 5 _ Hurl).
Qed.

Lemma search_duckduckgo_summary_urls_witness :
  exists url,
    In url (Data.get_news_urls Examples.world_up "AAPL" 5) /\
    Props.kept url.
Proof.
  assert (Hres : Data.search_duckduckgo Examples.world_up "AAPL"
                 = Spec.success_result
                     [PyDict [("title", PyStr "AAPL"); ("snippet", PyStr "Apple Inc.");
                              ("link", PyStr "https://example.com/aapl")]]
                     [PyDict [("title", PyStr "AAPL"); ("snippet", PyStr "Apple Inc.");
                              ("link", PyStr "https://example.com/aapl");
                              ("date", PyStr EmptyString)]]
                     [PyDict [("title", PyStr "Apple shares rise");
                              ("summary", PyStr "Apple shares rose on Tuesday.");
                              ("source", PyStr "news.example.com");
                              ("url", PyStr "https://news.example.com/markets/aapl")]])
    by (vm_compute; reflexivity).
  destruct (search_duckduckgo_summary_urls Examples.world_up "AAPL" _ _ _ _
              Hres (or_introl eq_refl))
    as (url & Hin & _ & _ & Hkept).
  exists url. split; assumption.
Defined.

(* ================================================================== *)
(** * Further properties of fetch_stock_history *)
(* ================================================================== *)

(** X12: fetch_stock_history reports success exactly when the lookup
    returns a frame with at least one row and at least one column, and the
    payload is then the non-empty list of records of that frame; a frame
    without rows or without columns gives the "No data found" error, and
    an exception of the lookup gives an error carrying its text; the data
    of an error is null. *)
Theorem fetch_stock_history_shapes (w : Data.World)
    (ticker start_date end_date : string) :
  (exists history,
      Data.yf_history w ticker start_date end_date = inr history /\
      Data.rows history <> [] /\ Data.columns history <> [] /\
      Data.to_dict_records history <> [] /\
      Data.fetch_stock_history w ticker start_date end_date
        = PyDict [("status", PyStr "success");
                  ("data", PyList (Data.to_dict_records history))]) \/
  (exists history,
      Data.yf_history w ticker start_date end_date = inr history /\
      (Data.rows history = [] \/ Data.columns history = []) /\
      Data.fetch_stock_history w ticker start_date end_date
        = PyDict [("status", PyStr "error");
                  ("message", PyStr "No data found for the given period.");
                  ("data", PyNone)]) \/
  (exists e,
      Data.yf_history w ticker start_date end_date = inl e /\
      Data.fetch_stock_history w ticker start_date end_date
        = PyDict [("status", PyStr "error");
                  ("message", PyStr (str_of_exn e));
                  ("data", PyNone)]).
Proof.
  unfold Data.fetch_stock_history.
  destruct (Data.yf_history w ticker start_date end_date) as [e|history];
    cbn [bind]; [right; right; eauto |].
  unfold Data.df_empty, Data.to_dict_records.
  destruct (Data.rows history) as [|row rows] eqn:Hrows; cbn [length Nat.eqb orb].
  - right. left. exists history. rewrite Hrows. repeat split. now left.
  - destruct (Data.columns history) as [|col cols] eqn:Hcols; cbn [length Nat.eqb ret].
    + right. left. exists history. rewrite Hcols. repeat split. now right.
    + left. exists history. rewrite Hrows, Hcols. repeat split; discriminate.
Qed.

Lemma dict_get_set_eq (k : string) (v : pyval) (d : dict) :
  dict_get k (Data.dict_set k v d) = Some v.
Proof.
  induction d as [|[k' v'] d IH]; cbn [Data.dict_set dict_get].
  - now rewrite String.eqb_refl.
  - destruct (String.eqb k k') eqn:E; cbn [dict_get]; rewrite ?String.eqb_refl, ?E;
      [reflexivity | exact IH].
Qed.

Lemma dict_get_set_ne (k k0 : string) (v : pyval) (d : dict) :
  k <> k0 -> dict_get k (Data.dict_set k0 v d) = dict_get k d.
Proof.
  intros Hne. induction d as [|[k' v'] d IH]; cbn [Data.dict_set dict_get].
  - apply String.eqb_neq in Hne. now rewrite Hne.
  - destruct (String.eqb_spec k0 k') as [<-|Hk0]; cbn [dict_get].
    + apply String.eqb_neq in Hne. now rewrite Hne.
    + now rewrite IH.
Qed.

Lemma dict_get_fold_other (l : list (string * pyval)) :
  forall (d : dict) (k : string),
    ~ In k (map fst l) ->
    dict_get k (fold_left (fun d kv => Data.dict_set (fst kv) (snd kv) d) l d)
      = dict_get k d.
Proof.
  induction l as [|[k0 v0] l IH]; intros d k Hnot; cbn [fold_left fst snd];
    [reflexivity |].
  cbn [map fst In] in Hnot. rewrite IH by tauto.
  apply dict_get_set_ne. intros ->. tauto.
Qed.

Lemma dict_get_fold_in (l : list (string * pyval)) :
  forall (d : dict) (k : string) (v : pyval),
    List.NoDup (map fst l) -> In (k, v) l ->
    dict_get k (fold_left (fun d kv => Data.dict_set (fst kv) (snd kv) d) l d)
      = Some v.
Proof.
  induction l as [|[k0 v0] l IH]; intros d k v Hnd Hin; [destruct Hin |].
  cbn [map fst] in Hnd. apply List.NoDup_cons_iff in Hnd as [Hk0 Hnd].
  cbn [fold_left fst snd]. destruct Hin as [[= -> ->]|Hin].
  - rewrite dict_get_fold_other by exact Hk0. apply dict_get_set_eq.
  - now apply IH.
Qed.

Lemma zip_lookup_in (ks : list string) :
  forall (vs : list pyval) (i : nat) (k : string) (v : pyval),
    ks !! i = Some k -> vs !! i = Some v -> In (k, v) (zip ks vs).
Proof.
  induction ks as [|k0 ks IH]; intros [|v0 vs] [|i] k v Hk Hv;
    try discriminate; cbn in *.
  - injection Hk as ->. injection Hv as ->. now left.
  - right. eapply IH; eassumption.
Qed.

Lemma nodup_fst_zip (ks : list string) :
  forall vs : list pyval, List.NoDup ks -> List.NoDup (map fst (zip ks vs)).
Proof.
  induction ks as [|k ks IH]; intros [|v vs] Hnd; cbn; try constructor.
  - apply List.NoDup_cons_iff in Hnd as [Hk _].
    intros Hin. apply Hk. eapply in_fst_zip, Hin.
  - apply IH. now apply List.NoDup_cons_iff in Hnd as [_ Hnd].
Qed.

(** X13: when the column labels of the returned frame are distinct, the
    record of row [j] maps the label of column [i] to the cell of row [j]
    in column [i]. *)
Theorem fetch_stock_history_cell (w : Data.World)
    (ticker start_date end_date : string) (history : Data.DataFrame)
    (j i : nat) (row : pyval * list pyval) (col : string) (cell : pyval) :
  Data.yf_history w ticker start_date end_date = inr history ->
  List.NoDup (Data.columns history) ->
  Data.rows history !! j = Some row ->
  Data.columns history !! i = Some col ->
  snd row !! i = Some cell ->
  exists data record,
    Data.fetch_stock_history w ticker start_date end_date
      = PyDict [("status", PyStr "success"); ("data", PyList data)] /\
    data !! j = Some (PyDict record) /\
    dict_get col record = Some cell.
Proof.
  intros Hhist Hnd Hrow Hcol Hcell.
  unfold Data.fetch_stock_history. rewrite Hhist. cbn [bind].
  assert (Hne : Data.df_empty history = false).
  { unfold Data.df_empty.
    apply lookup_lt_Some in Hrow. apply lookup_lt_Some in Hcol.
    destruct (Data.rows history); [cbn in Hrow; lia |].
    destruct (Data.columns history); [cbn in Hcol; lia |]. reflexivity. }
  rewrite Hne. cbn [ret]. eexists _, _. split; [reflexivity |].
  unfold Data.to_dict_records. split.
  - rewrite list_lookup_fmap, Hrow. reflexivity.
  - unfold Data.dict_of_zip. apply dict_get_fold_in.
    + now apply nodup_fst_zip.
    + eapply zip_lookup_in; eassumption.
Qed.

Lemma fetch_stock_history_cell_witness :
  exists data record,
    Data.fetch_stock_history Examples.world_up "AAPL" "2024-01-01" "2024-03-01"
      = PyDict [("status", PyStr "success"); ("data", PyList data)] /\
    data !! 0 = Some (PyDict record) /\
    dict_get "Close" record = Some (PyFloat 4640537203540230143).
Proof.
  apply (fetch_stock_history_cell Examples.world_up "AAPL" "2024-01-01" "2024-03-01"
           Examples.aapl_frame 0 3
           (PyStr "2024-01-02 00:00:00-05:00",
            [PyFloat 4640537203540230144; PyFloat 4640537203540230145;
             PyFloat 4640537203540230140; PyFloat 4640537203540230143;
             PyFloat 4725570615333879808; PyFloat 0; PyFloat 0])
           "Close" (PyFloat 4640537203540230143) eq_refl).
  - repeat constructor; cbn; intuition discriminate.
  - reflexivity.
  - reflexivity.
  - reflexivity.
Defined.

(* ================================================================== *)
(** * extract_keywords *)
(* ================================================================== *)

Lemma append_tagged_in (tagged : list (string * string)) :
  forall (keywords : list string) (k : string),
    In k (Data.append_tagged tagged keywords) <->
    In k keywords \/
    exists tag, In (k, tag) tagged /\ Data.keyword_tag tag = true /\
                3 < len k.
Proof.
  induction tagged as [|[word tag] rest IH]; intros keywords k;
    cbn [Data.append_tagged].
  - split; [now left | intros [H|(t & [] & _)]; exact H].
  - destruct (Data.keyword_tag tag && (3 <? len word)) eqn:Hkeep;
      rewrite IH.
    + apply andb_prop in Hkeep as [Htag Hlen%Nat.ltb_lt].
      rewrite in_app_iff. cbn [In]. split.
      * intros [[H|[<-|[]]]|(t & Hin & Ht & Hl)].
        -- now left.
        -- right. exists tag. repeat split; [now left | assumption ..].
        -- right. exists t. repeat split; [now right | assumption ..].
      * intros [H|(t & [[= <- <-]|Hin] & Ht & Hl)].
        -- now left; left.
        -- left. right. now left.
        -- right. exists t. repeat split; assumption.
    + split.
      * intros [H|(t & Hin & Ht & Hl)]; [now left |].
        right. exists t. repeat split; [now right | assumption ..].
      * intros [H|(t & [[= <- <-]|Hin] & Ht & Hl)]; [now left | |].
        -- apply Nat.ltb_lt in Hl. rewrite Ht, Hl in Hkeep. discriminate.
        -- right. exists t. repeat split; assumption.
Qed.

(** X14: extract_keywords returns the empty list for the empty text
    without consulting TextBlob; for any other text it lets an exception
    of TextBlob through, and otherwise returns a list without duplicates
    whose elements are exactly the noun phrases and the words longer than
    3 characters (not bytes) whose tag starts with NN, VB or JJ. *)
Theorem extract_keywords_spec (tb : Data.TextBlob) (text : string) :
  (text = EmptyString -> Data.extract_keywords tb text = inr []) /\
  (text <> EmptyString ->
   forall e,
     Data.noun_phrases tb text = inl e \/
     (Data.tags tb text = inl e /\ exists phrases, Data.noun_phrases tb text = inr phrases) ->
     Data.extract_keywords tb text = inl e) /\
  (text <> EmptyString ->
   forall phrases tagged,
     Data.noun_phrases tb text = inr phrases ->
     Data.tags tb text = inr tagged ->
     exists keywords,
       Data.extract_keywords tb text = inr keywords /\
       NoDup keywords /\
       forall k,
         In k keywords <->
         In k phrases \/
         exists tag, In (k, tag) tagged /\ Data.keyword_tag tag = true /\
                     3 < len k).
Proof.
  unfold Data.extract_keywords. split; [intros ->; reflexivity |].
  split.
  - intros Htext e H. destruct text; [congruence |]. cbn [str_truthy negb].
    destruct H as [H|[H [phrases Hp]]].
    + now rewrite H.
    + now rewrite Hp, H.
  - intros Htext phrases tagged Hp Ht. destruct text; [congruence |].
    cbn [str_truthy negb]. rewrite Hp, Ht. cbn [bind ret].
    eexists. split; [reflexivity |]. split; [apply NoDup_elements |].
    intros k. rewrite <- list_elem_of_In, elem_of_elements, elem_of_list_to_set,
      list_elem_of_In.
    apply append_tagged_in.
Qed.

Lemma extract_keywords_spec_witness :
  Data.extract_keywords Props.blob EmptyString = inr [] /\
  exists keywords,
    Data.extract_keywords Props.blob "Apple stock is rising fast" = inr keywords /\
    NoDup keywords.
Proof.
  destruct (extract_keywords_spec Props.blob EmptyString) as [Hempty _].
  split; [exact (Hempty eq_refl) |].
  destruct (extract_keywords_spec Props.blob "Apple stock is rising fast")
    as (_ & _ & Hkw).
  destruct (Hkw ltac:(discriminate) _ _ eq_refl eq_refl) as (keywords & Heq & Hnd & _).
  exists keywords. split; assumption.
Defined.

(* ================================================================== *)
(** * Further properties of transcribe_audio *)
(* ================================================================== *)

Lemma transcribe_audio_state (w : Main.World) (req : Main.Request) (fs : Main.FS) :
  snd (Main.transcribe_audio w req fs) = snd (Main.transcribe_body w req fs).
Proof.
  unfold Main.transcribe_audio, Main.try_except.
  now destruct (Main.transcribe_body w req fs) as [[e|v] fs'].
Qed.

Lemma audio_path_fresh (req : Main.Request) :
  "static/" +:+ Main.audio_filename req <> "temp.wav" /\
  "static/" +:+ Main.audio_filename req <> "converted.wav".
Proof. split; rewrite append_cons; discriminate. Qed.

(** X15: /transcribe/ leaves every file other than temp.wav,
    converted.wav and the response audio of the request as it was, and
    removes no file. *)
Theorem transcribe_audio_frame (w : Main.World) (req : Main.Request) (fs : Main.FS)
    (path : string) :
  (path <> "temp.wav" -> path <> "converted.wav" ->
   path <> Props.audio_path req ->
   Main.files (snd (Main.transcribe_audio w req fs)) !! path
     = Main.files fs !! path) /\
  (is_Some (Main.files fs !! path) ->
   is_Some (Main.files (snd (Main.transcribe_audio w req fs)) !! path)).
Proof.
  rewrite transcribe_audio_state. unfold Props.audio_path.
  destruct (Main.transcribe_body w req fs) as [r fs'] eqn:Hbody. cbn [snd].
  split.
  - intros Htemp Hconv Haudio.
    body_cases Hbody; injection Hbody as <- <-; cbn [Main.files];
      now rewrite ?lookup_insert_ne by congruence.
  - intros Hsome.
    body_cases Hbody; injection Hbody as <- <-; cbn [Main.files];
      repeat (apply lookup_insert_is_Some'; right); exact Hsome.
Qed.

Lemma transcribe_audio_frame_witness :
  Main.files (snd (Main.transcribe_audio Examples.studio Examples.request_a
                     Main.fs_init)) !! "static/index.html"
    = Main.files Main.fs_init !! "static/index.html".
Proof.
  apply (proj1 (transcribe_audio_frame Examples.studio Examples.request_a
                  Main.fs_init "static/index.html"));
    vm_compute; discriminate.
Defined.

(** X16: when /transcribe/ answers with the success object, the upload is
    in temp.wav, its re-encoding as wav is in converted.wav, the
    synthesized speech of the response text is in the response audio file,
    the audio_url is "/" followed by the path of that file, and these
    three paths, in this order, are what the request opened for writing. *)
Theorem transcribe_audio_success_files (w : Main.World) (req : Main.Request)
    (fs : Main.FS) (d : dict) :
  fst (Main.transcribe_audio w req fs) = inr (PyDict d) ->
  dict_get "error" d = None ->
  exists upload sound wav final_response mp3,
    Main.file_read req = inr upload /\
    Main.audio_from_file w upload = inr sound /\
    Main.audio_export w sound "wav" = inr wav /\
    dict_get "response" d = Some final_response /\
    Main.gtts_stream w final_response "en" = inr mp3 /\
    Main.files (snd (Main.transcribe_audio w req fs)) !! "temp.wav" = Some upload /\
    Main.files (snd (Main.transcribe_audio w req fs)) !! "converted.wav" = Some wav /\
    Main.files (snd (Main.transcribe_audio w req fs)) !! Props.audio_path req
      = Some mp3 /\
    dict_get "audio_url" d = Some (PyStr ("/" +:+ Props.audio_path req)) /\
    Main.written (snd (Main.transcribe_audio w req fs))
      = Props.audio_path req :: "converted.wav" :: "temp.wav" :: Main.written fs.
Proof.
  rewrite transcribe_audio_state.
  unfold Main.transcribe_audio, Main.try_except, Props.audio_path.
  destruct (audio_path_fresh req) as [Htemp Hconv].
  destruct (Main.transcribe_body w req fs) as [[e|v] fs'] eqn:Hbody; cbn [fst snd].
  - intros [= Hd] Herr. destruct e; injection Hd as <-; discriminate.
  - intros [= ->] _. unfold_body Hbody.
    repeat (next_call Hbody; try discriminate). read_back.
    injection Hbody as <- <-. cbn [Main.files Main.written].
    eexists _, _, _, _, _.
    repeat (split; [eassumption || reflexivity |]).
    rewrite !(lookup_insert_ne _ ("static/" +:+ Main.audio_filename req)) by congruence.
    rewrite !(lookup_insert_ne _ "converted.wav" "temp.wav") by discriminate.
    rewrite !lookup_insert_eq. repeat split.
Qed.

Lemma transcribe_audio_success_files_witness :
  exists mp3,
    Main.files (snd (Main.transcribe_audio Examples.studio Examples.request_a
                       Main.fs_init))
      !! "static/response_0f8fad5bd9cb469fa16570867728950e.mp3" = Some mp3.
Proof.
  destruct (transcribe_audio_success_files Examples.studio Examples.request_a
              Main.fs_init
              [("transcription", PyStr "price of AAPL");
               ("response", PyStr "AAPL closed at 185.");
               ("audio_url",
                PyStr "/static/response_0f8fad5bd9cb469fa16570867728950e.mp3")]
              eq_refl eq_refl)
    as (upload & sound & wav & final & mp3 & _ & _ & _ & _ & _ & _ & _ & Hmp3 & _).
  exists mp3. exact Hmp3.
Defined.

(** X17: the paths a request opens for writing are, in order, temp.wav,
    then converted.wav, then its response audio: it stops after none, one,
    two or all three of them, and opens nothing else. *)
Theorem transcribe_audio_written_order (w : Main.World) (req : Main.Request)
    (fs : Main.FS) :
  let after := Main.written (snd (Main.transcribe_audio w req fs)) in
  after = Main.written fs \/
  after = "temp.wav" :: Main.written fs \/
  after = "converted.wav" :: "temp.wav" :: Main.written fs \/
  after = Props.audio_path req :: "converted.wav" :: "temp.wav" :: Main.written fs.
Proof.
  cbv zeta. rewrite transcribe_audio_state. unfold Props.audio_path.
  destruct (Main.transcribe_body w req fs) as [r fs'] eqn:Hbody. cbn [snd].
  body_cases Hbody; injection Hbody as <- <-; cbn [Main.written]; tauto.
Qed.

(** X18: the page takes its error branch on the answers of /transcribe/
    that are the one-field error object, and shows their text; on every
    other answer it does not, and the answer then has the three fields of
    the success object. *)
Theorem app_error_branch (w : Main.World) (req : Main.Request) (fs : Main.FS) :
  (exists msg,
      Main.response_of w req fs = PyDict [("error", PyStr msg)] /\
      App.error_branch (Main.response_of w req fs) = inr (Some (PyStr msg))) \/
  (exists text final_response url,
      Main.response_of w req fs
        = PyDict [("transcription", PyStr text);
                  ("response", final_response);
                  ("audio_url", PyStr url)] /\
      App.error_branch (Main.response_of w req fs) = inr None).
Proof.
  unfold Main.response_of, Main.transcribe_audio, Main.try_except.
  destruct (Main.transcribe_body w req fs) as [[e|v] fs'] eqn:Hbody; cbn [fst].
  - left. destruct e; eexists; split; reflexivity.
  - right.
    destruct (transcribe_body_returns _ _ _ _ _ Hbody)
      as (text & response & trace & _ & _ & ->).
    eexists _, _, _. split; reflexivity.
Qed.

Example extract_keywords_accents :
  Data.extract_keywords Props.blob_accents "née" = inr ["stock"; "naïve"].
Proof. reflexivity. Qed.

(* ================================================================== *)
(** * The record of get_news_summary and the host of the URL *)
(* ================================================================== *)

Lemma lacks_no_slash (s : string) : Props.lacks "/" s = Spec.no_slash s.
Proof. induction s as [|c s IH]; cbn; congruence. Qed.

Lemma after_double_slash_cons (c d : ascii) (rest : string) :
  Url.after_double_slash (String c (String d rest))
    = if Ascii.eqb c "/" && Ascii.eqb d "/" then Some rest
      else Url.after_double_slash (String d rest).
Proof. reflexivity. Qed.

Lemma after_double_slash_app (a : string) :
  forall rest,
    Spec.no_slash a = true ->
    Url.after_double_slash (a +:+ String "/" (String "/" rest)) = Some rest.
Proof.
  induction a as [|c a IH]; intros rest Ha; [reflexivity |].
  cbn [Spec.no_slash] in Ha. apply andb_prop in Ha as [Hc Ha].
  apply negb_true_iff in Hc. rewrite append_cons.
  destruct a as [|d a].
  - rewrite append_nil_l, after_double_slash_cons, Hc. reflexivity.
  - rewrite append_cons, after_double_slash_cons, Hc. cbn [andb].
    rewrite <- append_cons. now apply IH.
Qed.

Lemma take_until_host (host path : string) :
  Props.lacks "/" host = true -> Props.lacks "?" host = true ->
  Props.lacks "#" host = true -> Spec.path_like path = true ->
  Url.take_until Url.ends_authority (host +:+ path) = host.
Proof.
  intros Hslash Hquery Hfrag Hpath.
  induction host as [|c host IH].
  - rewrite append_nil_l. destruct path as [|c path]; [reflexivity |].
    cbn [Spec.path_like] in Hpath. cbn [Url.take_until].
    unfold Url.ends_authority. now rewrite Hpath.
  - cbn [Props.lacks] in *.
    apply andb_prop in Hslash as [Hc1 Hslash]. apply negb_true_iff in Hc1.
    apply andb_prop in Hquery as [Hc2 Hquery]. apply negb_true_iff in Hc2.
    apply andb_prop in Hfrag as [Hc3 Hfrag]. apply negb_true_iff in Hc3.
    rewrite append_cons. cbn [Url.take_until]. unfold Url.ends_authority at 1.
    rewrite Hc1, Hc2, Hc3. cbn [orb]. now rewrite IH.
Qed.

Lemma bare_host_lacks (host : string) :
  Url.bare_host host = true ->
  Props.lacks "/" host = true /\ Props.lacks "?" host = true /\
  Props.lacks "#" host = true /\ Props.lacks "@" host = true /\
  Props.lacks ":" host = true.
Proof.
  unfold Url.bare_host.
  intros [[[[H1 H2]%andb_prop H3]%andb_prop H4]%andb_prop H5]%andb_prop.
  auto.
Qed.

(** The host component of scheme://host/path, for a host written bare. *)
Lemma url_host_bare (scheme host path : string) :
  Spec.no_slash scheme = true ->
  Url.bare_host host = true ->
  Spec.path_like path = true ->
  Url.url_host (scheme +:+ "://" +:+ host +:+ path) = Some host.
Proof.
  intros Hs Hh Hp.
  destruct (bare_host_lacks _ Hh) as (Hslash & Hquery & Hfrag & Hat & Hcolon).
  replace (scheme +:+ "://" +:+ host +:+ path)
    with ((scheme +:+ ":") +:+ String "/" (String "/" (host +:+ path)))
    by (now rewrite append_assoc).
  unfold Url.url_host, Url.url_authority.
  rewrite after_double_slash_app by (rewrite no_slash_append, Hs; reflexivity).
  rewrite take_until_host by assumption.
  unfold split.
  rewrite (split_go_no_occurrence "@" host EmptyString) by (now apply lacks_str_in).
  cbn [last default from_option id]. rewrite append_nil_l.
  rewrite (split_go_no_occurrence ":" host EmptyString) by (now apply lacks_str_in).
  reflexivity.
Qed.

(** C8, as stated, fails on a URL with an explicit port: the source is
    the text between "//" and the next "/", port included, not the host
    component. *)
Lemma get_news_summary_source_not_host : ~ Url.summary_source_is_host.
Proof.
  intros claim.
  destruct (claim Examples.world_port Examples.port_url Examples.aapl_article eq_refl)
    as (summary & host & Hhost & Hrec & _).
  vm_compute in Hhost. injection Hhost as <-.
  vm_compute in Hrec. discriminate Hrec.
Qed.

(** C8, amended: when the article of a URL is fetched and parsed,
    get_news_summary returns None if the URL holds fewer than two "/",
    and otherwise a record with exactly the fields title, summary, source
    and url; source is the third "/"-separated piece of the URL, which for
    scheme://host/path with a bare host (no user information, port, query
    or fragment sticking to it) is the host component; summary is the
    explicit description when there is one and otherwise the first 250
    characters of the body. *)
Theorem get_news_summary_record (w : Data.World) (url : string)
    (article : Data.Article) :
  Data.article_fetch w url = inr article ->
  (Props.count_char "/" url < 2 -> Data.get_news_summary w url = PyNone) /\
  (2 <= Props.count_char "/" url ->
   exists source summary,
     split "/" url !! 2 = Some source /\
     Data.get_news_summary w url
       = PyDict [("title", PyStr (Data.title article));
                 ("summary", PyStr summary);
                 ("source", PyStr source);
                 ("url", PyStr url)] /\
     (Data.meta_description article <> EmptyString ->
        summary = Data.meta_description article) /\
     (Data.meta_description article = EmptyString ->
        summary = slice_to 250 (Data.text article) /\
        len summary = Nat.min 250 (len (Data.text article)) /\
        len summary <= 250 /\
        String.prefix summary (Data.text article) = true)) /\
  (forall scheme host path,
      url = scheme +:+ "://" +:+ host +:+ path ->
      Spec.no_slash scheme = true ->
      Url.bare_host host = true ->
      Spec.path_like path = true ->
      Url.url_host url = Some host /\
      Spec.field "source" (Data.get_news_summary w url) = Some (PyStr host)).
Proof.
  intros Hfetch.
  pose proof (split_go_char_length "/" url EmptyString) as Hlen.
  unfold Data.get_news_summary. rewrite Hfetch. cbn [bind].
  split; [| split].
  - intros Hfew. unfold list_item, split.
    destruct (split_go "/" 0 EmptyString url !! 2) eqn:Hsrc; [| reflexivity].
    apply lookup_lt_Some in Hsrc. lia.
  - intros Hmany. unfold list_item, split.
    destruct (split_go "/" 0 EmptyString url !! 2) as [source|] eqn:Hsrc.
    + cbn [bind ret]. exists source. eexists.
      split; [reflexivity |]. split; [reflexivity |]. split.
      * intros Hd. destruct (str_truthy (Data.meta_description article)) eqn:E;
          [reflexivity |].
        apply str_truthy_false in E. contradiction.
      * intros Hd. rewrite Hd. cbn [str_truthy].
        split; [reflexivity |]. split; [apply slice_to_len |].
        split; [rewrite slice_to_len; lia | apply slice_to_prefix].
    + apply lookup_ge_None in Hsrc. lia.
  - intros scheme host path -> Hs Hh Hp.
    split; [now apply url_host_bare |].
    destruct (bare_host_lacks _ Hh) as (Hslash & _).
    rewrite lacks_no_slash in Hslash.
    rewrite (split_url_host _ _ _ Hs Hslash Hp). reflexivity.
Qed.

Lemma get_news_summary_record_witness :
  Url.url_host "https://news.example.com/markets/aapl" = Some "news.example.com" /\
  Spec.field "source"
    (Data.get_news_summary Examples.world_up "https://news.example.com/markets/aapl")
    = Some (PyStr "news.example.com").
Proof.
  destruct (get_news_summary_record Examples.world_up
              "https://news.example.com/markets/aapl" Examples.aapl_article eq_refl)
    as (_ & _ & Hhost).
  exact (Hhost "https" "news.example.com" "/markets/aapl"
           eq_refl eq_refl eq_refl eq_refl).
Defined.

Example url_host_examples :
  Url.url_host "https://user:pw@example.com:8080/x" = Some "example.com" /\
  Url.url_host "https://example.com?x=1#frag" = Some "example.com" /\
  Url.url_host "example.com/a" = None /\
  split "/" "https://user:pw@example.com:8080/x" !! 2 = Some "user:pw@example.com:8080".
Proof. repeat split. Qed.

(* ================================================================== *)
(** * search_duckduckgo and its two sub-fetches *)
(* ================================================================== *)





(* ================================================================== *)
(** * The sizes of a success result, and the summaries it holds *)
(* ================================================================== *)





